(** * adljack: the player layer of [common.cc]

    A shallow embedding of the run-time player layer of adljack
    ([src/sources/common.cc]): the MIDI decoder [generic_play_midi], the
    per-block audio generator [generic_generate_outputs] and the three
    dynamic reconfiguration operations, together with the process-wide
    state they share ([::player], [player_mutex], [channel_map], the DC
    filters, the level monitors and the load telemetry).

    The synthesis engine ([Player_Traits<Pt>]), the DC filter and the level
    monitor are declared in headers outside [common.cc]; they are taken as
    interfaces (type classes) and every theorem holds for all of their
    implementations. *)

From Stdlib Require Import ZArith List Bool Lia.
From Stdlib Require Import Floats.PrimFloat Floats.SpecFloat Floats.FloatOps.
From Stdlib Require Numbers.Cyclic.Int63.Uint63.
From Stdlib Require Import Init.Byte.
From stdpp Require Import base list strings.

Local Open Scope Z_scope.

(* ===================================================================== *)
(** ** Machine data *)
(* ===================================================================== *)

(** [unsigned] is 32 bits wide: arithmetic on it wraps modulo [2^32]. *)
Definition u32 (z : Z) : Z := z mod 2 ^ 32.

(** A [uint8_t] read as an integer in [[0, 256)]. *)
Definition u8 (b : byte) : Z := Z.of_N (Byte.to_N b).

(** [msg[i]] for a [const uint8_t *msg]; the caller owns at least [len]
    bytes, a read past the end of the model's list yields [0]. *)
Definition msg_at (msg : list byte) (i : nat) : Z := u8 (nth i msg x00).

(** [double]: IEEE-754 binary64, the kernel's primitive floats. *)
Definition double := float.

(** Conversion of a 64-bit signed integer to [double]. *)
Definition double_of_Z (z : Z) : double :=
  if z <? 0 then PrimFloat.opp (PrimFloat.of_uint63 (Uint63.of_Z (- z)))
  else PrimFloat.of_uint63 (Uint63.of_Z z).

(** Conversion of a [double] to [float] (binary32: 24 bits of precision,
    exponents up to 128), round to nearest even; the result is kept as the
    [double] of the same value. *)
Definition float_of_double (x : double) : double :=
  match Prim2SF x with
  | S754_finite s m e => SF2Prim (binary_round 24 128 s m e)
  | _ => x
  end.

(** [sizeof(float)] *)
Definition sizeof_float : Z := 4.

(** The memory holding the caller's audio buffers, addressed in units of
    [float]. [left] and [right] are addresses into it, so that interleaved
    layouts ([right = left + 1], [stride = 2]) alias one block. *)
Definition Mem := Z -> double.

Definition store (m : Mem) (a : Z) (v : double) : Mem :=
  fun b => if Z.eqb b a then v else m b.

(** [struct Program] of [common.h]; [gm] is the field [common.cc] uses. *)
Record Program := mkProgram { gm : Z }.

Definition set_gm (pgm : Z) (p : Program) : Program :=
  let '(mkProgram _) := p in mkProgram pgm.

(** [enum ADLMIDI_SampleType] of the synthesis library. *)
Inductive SampleType :=
| ADLMIDI_SampleType_S16
| ADLMIDI_SampleType_S8
| ADLMIDI_SampleType_F32
| ADLMIDI_SampleType_F64.

(** [struct ADLMIDI_AudioFormat]: both sizes are [unsigned]. *)
Record AudioFormat := mkAudioFormat {
  type : SampleType;
  containerSize : Z;
  sampleOffset : Z
}.

(* ===================================================================== *)
(** ** The collaborators of [common.cc] *)
(* ===================================================================== *)

(** [Player_Traits<Pt>]: the operations of one synthesis backend on its
    player handle. Operations that return a status return it next to the
    updated player; a negative status is a failure. *)
Class Player_Traits (Player : Type) := {
  init : Z -> option Player;
  switch_emulator : Player -> Z -> Player * Z;
  open_bank_file : Player -> string -> Player * Z;
  set_num_chips : Player -> Z -> Player * Z;
  get_num_chips : Player -> Z;
  panic : Player -> Player;
  rt_note_on : Player -> Z -> Z -> Z -> Player;
  rt_note_off : Player -> Z -> Z -> Player;
  rt_note_aftertouch : Player -> Z -> Z -> Z -> Player;
  rt_channel_aftertouch : Player -> Z -> Z -> Player;
  rt_controller_change : Player -> Z -> Z -> Z -> Player;
  rt_program_change : Player -> Z -> Z -> Player;
  rt_pitchbend_ml : Player -> Z -> Z -> Z -> Player;
  generate_format :
    Player -> Z -> Z -> Z -> AudioFormat -> Mem -> Player * Mem
}.

(** [DcFilter] and [VuMonitor]: the signal conditioner. *)
Class Signal_Conditioner (DcFilter VuMonitor : Type) := {
  dc_cutoff : DcFilter -> double -> DcFilter;
  dc_process : DcFilter -> double -> DcFilter * double;
  vu_release : VuMonitor -> double -> VuMonitor;
  vu_process : VuMonitor -> double -> VuMonitor * double
}.

(* ===================================================================== *)
(** ** Observable events *)
(* ===================================================================== *)

(** A call that reaches the backend, with its arguments. *)
Inductive Call :=
| CSwitchEmulator (emulator : Z)
| COpenBankFile (bankfile : string)
| CSetNumChips (nchip : Z)
| CPanic
| CNoteOn (channel key velocity : Z)
| CNoteOff (channel key : Z)
| CNoteAftertouch (channel key value : Z)
| CChannelAftertouch (channel value : Z)
| CControllerChange (channel controller value : Z)
| CProgramChange (channel pgm : Z)
| CPitchBend (channel msb lsb : Z)
| CGenerateFormat (sampleCount left right : Z) (format : AudioFormat).

Inductive Telemetry := TLevel | TCpuRatio.

(** What a call of the player layer does, in program order. *)
Inductive Event :=
| EvTryLock (owns : bool)
| EvLock
| EvUnlock
| EvNow (t : Z)
| EvBackend (c : Call)
| EvDcFilter (channel : nat)
| EvVuMonitor (channel : nat)
| EvStore (what : Telemetry).

(** Outcome of a call: a returned value or a thrown [std::runtime_error]. *)
Inductive Res (A : Type) :=
| Ok (a : A)
| Throw (what : string).
Arguments Ok {A} a.
Arguments Throw {A} what.

(* ===================================================================== *)
(** ** The process-wide state *)
(* ===================================================================== *)

(** The globals of [common.cc], the memory of the audio buffers, the
    steady clock (the sequence of its successive readings, in nanoseconds)
    and the log of events. [player] is the handle [::player] points to once
    [generic_initialize_player] has run. [player_mutex] tells whether the
    mutex is currently held. *)
Record World (Player DcFilter VuMonitor : Type) := mkWorld {
  player : Player;
  player_bank_file : option string;
  dcfilter : DcFilter * DcFilter;
  lvmonitor : VuMonitor * VuMonitor;
  lvcurrent : double * double;
  cpuratio : double;
  channel_map : list Program;
  player_sample_rate : Z;
  player_emulator_id : Z;
  player_mutex : bool;
  heap : Mem;
  steady_clock : nat -> Z;
  clock_reads : nat;
  trace : list Event
}.
Arguments mkWorld {Player DcFilter VuMonitor}.
Arguments player {Player DcFilter VuMonitor} w.
Arguments player_bank_file {Player DcFilter VuMonitor} w.
Arguments dcfilter {Player DcFilter VuMonitor} w.
Arguments lvmonitor {Player DcFilter VuMonitor} w.
Arguments lvcurrent {Player DcFilter VuMonitor} w.
Arguments cpuratio {Player DcFilter VuMonitor} w.
Arguments channel_map {Player DcFilter VuMonitor} w.
Arguments player_sample_rate {Player DcFilter VuMonitor} w.
Arguments player_emulator_id {Player DcFilter VuMonitor} w.
Arguments player_mutex {Player DcFilter VuMonitor} w.
Arguments heap {Player DcFilter VuMonitor} w.
Arguments steady_clock {Player DcFilter VuMonitor} w.
Arguments clock_reads {Player DcFilter VuMonitor} w.
Arguments trace {Player DcFilter VuMonitor} w.

Section World_updates.
Context {Player DcFilter VuMonitor : Type}.
Local Abbreviation W := (World Player DcFilter VuMonitor).

Definition set_player (x : Player) (w : W) : W :=
  mkWorld x (player_bank_file w) (dcfilter w) (lvmonitor w) (lvcurrent w)
    (cpuratio w) (channel_map w) (player_sample_rate w)
    (player_emulator_id w) (player_mutex w) (heap w) (steady_clock w)
    (clock_reads w) (trace w).

Definition set_player_bank_file (x : option string) (w : W) : W :=
  mkWorld (player w) x (dcfilter w) (lvmonitor w) (lvcurrent w)
    (cpuratio w) (channel_map w) (player_sample_rate w)
    (player_emulator_id w) (player_mutex w) (heap w) (steady_clock w)
    (clock_reads w) (trace w).

Definition set_dcfilter (x : DcFilter * DcFilter) (w : W) : W :=
  mkWorld (player w) (player_bank_file w) x (lvmonitor w) (lvcurrent w)
    (cpuratio w) (channel_map w) (player_sample_rate w)
    (player_emulator_id w) (player_mutex w) (heap w) (steady_clock w)
    (clock_reads w) (trace w).

Definition set_lvmonitor (x : VuMonitor * VuMonitor) (w : W) : W :=
  mkWorld (player w) (player_bank_file w) (dcfilter w) x (lvcurrent w)
    (cpuratio w) (channel_map w) (player_sample_rate w)
    (player_emulator_id w) (player_mutex w) (heap w) (steady_clock w)
    (clock_reads w) (trace w).

Definition set_lvcurrent (x : double * double) (w : W) : W :=
  mkWorld (player w) (player_bank_file w) (dcfilter w) (lvmonitor w) x
    (cpuratio w) (channel_map w) (player_sample_rate w)
    (player_emulator_id w) (player_mutex w) (heap w) (steady_clock w)
    (clock_reads w) (trace w).

Definition set_cpuratio (x : double) (w : W) : W :=
  mkWorld (player w) (player_bank_file w) (dcfilter w) (lvmonitor w)
    (lvcurrent w) x (channel_map w) (player_sample_rate w)
    (player_emulator_id w) (player_mutex w) (heap w) (steady_clock w)
    (clock_reads w) (trace w).

Definition set_channel_map (x : list Program) (w : W) : W :=
  mkWorld (player w) (player_bank_file w) (dcfilter w) (lvmonitor w)
    (lvcurrent w) (cpuratio w) x (player_sample_rate w)
    (player_emulator_id w) (player_mutex w) (heap w) (steady_clock w)
    (clock_reads w) (trace w).

Definition set_player_sample_rate (x : Z) (w : W) : W :=
  mkWorld (player w) (player_bank_file w) (dcfilter w) (lvmonitor w)
    (lvcurrent w) (cpuratio w) (channel_map w) x
    (player_emulator_id w) (player_mutex w) (heap w) (steady_clock w)
    (clock_reads w) (trace w).

Definition set_player_emulator_id (x : Z) (w : W) : W :=
  mkWorld (player w) (player_bank_file w) (dcfilter w) (lvmonitor w)
    (lvcurrent w) (cpuratio w) (channel_map w) (player_sample_rate w)
    x (player_mutex w) (heap w) (steady_clock w)
    (clock_reads w) (trace w).

Definition set_player_mutex (x : bool) (w : W) : W :=
  mkWorld (player w) (player_bank_file w) (dcfilter w) (lvmonitor w)
    (lvcurrent w) (cpuratio w) (channel_map w) (player_sample_rate w)
    (player_emulator_id w) x (heap w) (steady_clock w)
    (clock_reads w) (trace w).

Definition set_heap (x : Mem) (w : W) : W :=
  mkWorld (player w) (player_bank_file w) (dcfilter w) (lvmonitor w)
    (lvcurrent w) (cpuratio w) (channel_map w) (player_sample_rate w)
    (player_emulator_id w) (player_mutex w) x (steady_clock w)
    (clock_reads w) (trace w).

Definition set_clock_reads (x : nat) (w : W) : W :=
  mkWorld (player w) (player_bank_file w) (dcfilter w) (lvmonitor w)
    (lvcurrent w) (cpuratio w) (channel_map w) (player_sample_rate w)
    (player_emulator_id w) (player_mutex w) (heap w) (steady_clock w)
    x (trace w).

Definition set_trace (x : list Event) (w : W) : W :=
  mkWorld (player w) (player_bank_file w) (dcfilter w) (lvmonitor w)
    (lvcurrent w) (cpuratio w) (channel_map w) (player_sample_rate w)
    (player_emulator_id w) (player_mutex w) (heap w) (steady_clock w)
    (clock_reads w) x.
End World_updates.

(* ===================================================================== *)
(** ** The monad of the player layer: state and exceptions *)
(* ===================================================================== *)

Section Monad.
Context {Player DcFilter VuMonitor : Type}.
Local Abbreviation W := (World Player DcFilter VuMonitor).

Definition M (A : Type) : Type := W -> Res A * W.

Definition ret {A} (a : A) : M A := fun w => (Ok a, w).

Definition bind {A B} (m : M A) (k : A -> M B) : M B :=
  fun w =>
    match m w with
    | (Ok a, w') => k a w'
    | (Throw what, w') => (Throw what, w')
    end.

Definition throw {A} (what : string) : M A := fun w => (Throw what, w).

(** The outcome and the final state of a call. *)
Definition outcome {A} (m : M A) (w : W) : Res A := fst (m w).
Definition exec {A} (m : M A) (w : W) : W := snd (m w).

Definition emit (e : Event) : M unit :=
  fun w => (Ok tt, set_trace (trace w ++ [e]) w).
End Monad.
Arguments M Player DcFilter VuMonitor A : clear implicits.

Declare Scope player_scope.
Delimit Scope player_scope with player.
Notation "x <- c ;; k" := (bind c (fun x => k))
  (at level 100, c at next level, k at level 200, right associativity)
  : player_scope.
Notation "c ;; k" := (bind c (fun _ => k))
  (at level 100, k at level 200, right associativity) : player_scope.
Local Open Scope player_scope.

(* ===================================================================== *)
(** ** The player layer *)
(* ===================================================================== *)

Section PlayerLayer.
Context {Player DcFilter VuMonitor : Type}.
Context {Traits : Player_Traits Player}.
Context {Conditioner : Signal_Conditioner DcFilter VuMonitor}.

(** [dccutoff] (Hz) and [lvrelease] (seconds): constants of [common.h]. *)
Variables dccutoff lvrelease : double.

Local Abbreviation W := (World Player DcFilter VuMonitor).
Local Abbreviation M := (M Player DcFilter VuMonitor).

(** *** The mutex and the clock *)

(** [std::unique_lock<std::mutex> lock(player_mutex, std::try_to_lock)]
    followed by [lock.owns_lock()]. *)
Definition try_lock : M bool :=
  fun w =>
    if player_mutex w
    then (Ok false, set_trace (trace w ++ [EvTryLock false]) w)
    else (Ok true,
          set_trace (trace w ++ [EvTryLock true]) (set_player_mutex true w)).

(** [std::lock_guard<std::mutex> lock(player_mutex)]: the call waits until
    the holder, if any, has released the mutex, and returns holding it. *)
Definition lock_guard : M unit :=
  fun w => (Ok tt, set_trace (trace w ++ [EvLock]) (set_player_mutex true w)).

(** [lock.unlock()], also run by the destructor of a lock that is owned. *)
Definition unlock : M unit :=
  fun w =>
    (Ok tt, set_trace (trace w ++ [EvUnlock]) (set_player_mutex false w)).

(** [stc::steady_clock::now()] *)
Definition now : M Z :=
  fun w =>
    let t := steady_clock w (clock_reads w) in
    (Ok t, set_trace (trace w ++ [EvNow t])
             (set_clock_reads (S (clock_reads w)) w)).

(** *** Calls into the backend *)

Definition call (c : Call) (f : Player -> Player) : M unit :=
  fun w =>
    (Ok tt, set_trace (trace w ++ [EvBackend c]) (set_player (f (player w)) w)).

Definition call_status (c : Call) (f : Player -> Player * Z) : M Z :=
  fun w =>
    let r := f (player w) in
    (Ok (snd r), set_trace (trace w ++ [EvBackend c]) (set_player (fst r) w)).

Definition Traits_switch_emulator (emulator : Z) : M Z :=
  call_status (CSwitchEmulator emulator) (fun p => switch_emulator p emulator).

Definition Traits_open_bank_file (bankfile : string) : M Z :=
  call_status (COpenBankFile bankfile) (fun p => open_bank_file p bankfile).

Definition Traits_set_num_chips (nchip : Z) : M Z :=
  call_status (CSetNumChips nchip) (fun p => set_num_chips p nchip).

Definition Traits_panic : M unit := call CPanic panic.

Definition Traits_rt_note_on (channel key velocity : Z) : M unit :=
  call (CNoteOn channel key velocity)
       (fun p => rt_note_on p channel key velocity).

Definition Traits_rt_note_off (channel key : Z) : M unit :=
  call (CNoteOff channel key) (fun p => rt_note_off p channel key).

Definition Traits_rt_note_aftertouch (channel key value : Z) : M unit :=
  call (CNoteAftertouch channel key value)
       (fun p => rt_note_aftertouch p channel key value).

Definition Traits_rt_channel_aftertouch (channel value : Z) : M unit :=
  call (CChannelAftertouch channel value)
       (fun p => rt_channel_aftertouch p channel value).

Definition Traits_rt_controller_change (channel controller value : Z)
  : M unit :=
  call (CControllerChange channel controller value)
       (fun p => rt_controller_change p channel controller value).

Definition Traits_rt_program_change (channel pgm : Z) : M unit :=
  call (CProgramChange channel pgm) (fun p => rt_program_change p channel pgm).

Definition Traits_rt_pitchbend_ml (channel msb lsb : Z) : M unit :=
  call (CPitchBend channel msb lsb)
       (fun p => rt_pitchbend_ml p channel msb lsb).

(** [Traits::generate_format(player, sampleCount, left, right, &format)]:
    the backend writes into the memory of the buffers. *)
Definition Traits_generate_format (sampleCount left right : Z)
  (format : AudioFormat) : M unit :=
  fun w =>
    let r := generate_format (player w) sampleCount left right format (heap w) in
    (Ok tt,
     set_trace (trace w ++ [EvBackend (CGenerateFormat sampleCount left right format)])
       (set_heap (snd r) (set_player (fst r) w))).

(** *** Memory and signal conditioning *)

Definition load (a : Z) : M double := fun w => (Ok (heap w a), w).

Definition write (a : Z) (v : double) : M unit :=
  fun w => (Ok tt, set_heap (store (heap w) a v) w).

(** [dcfilter[0].process(x)] and [dcfilter[1].process(x)] *)
Definition dcfilter_process (channel : nat) (x : double) : M double :=
  fun w =>
    let '(f0, f1) := dcfilter w in
    match channel with
    | O => let r := dc_process f0 x in
           (Ok (snd r), set_trace (trace w ++ [EvDcFilter 0%nat])
                          (set_dcfilter (fst r, f1) w))
    | _ => let r := dc_process f1 x in
           (Ok (snd r), set_trace (trace w ++ [EvDcFilter 1%nat])
                          (set_dcfilter (f0, fst r) w))
    end.

(** [lvmonitor[0].process(x)] and [lvmonitor[1].process(x)] *)
Definition lvmonitor_process (channel : nat) (x : double) : M double :=
  fun w =>
    let '(m0, m1) := lvmonitor w in
    match channel with
    | O => let r := vu_process m0 x in
           (Ok (snd r), set_trace (trace w ++ [EvVuMonitor 0%nat])
                          (set_lvmonitor (fst r, m1) w))
    | _ => let r := vu_process m1 x in
           (Ok (snd r), set_trace (trace w ++ [EvVuMonitor 1%nat])
                          (set_lvmonitor (m0, fst r) w))
    end.

(** [for (unsigned i = 0; i < nframes; ++i) body], threading the locals the
    body assigns; [k] iterations starting at index [i]. *)
Fixpoint for_frames {A : Type} (k : nat) (i : Z) (body : Z -> A -> M A)
  (a : A) : M A :=
  match k with
  | O => ret a
  | S k' => a' <- body i a ;; for_frames k' (i + 1) body a'
  end.

(** An assignment to a global. *)
Definition assign (f : W -> W) : M unit := fun w => (Ok tt, f w).

(** *** [generic_initialize_player] *)

Definition generic_initialize_player (sample_rate nchip : Z)
  (bankfile : option string) (emulator : Z) : M unit :=
  match init sample_rate with
  | None => throw "error instantiating ADLMIDI"
  | Some p =>
    assign (set_player p) ;;
    assign (set_player_sample_rate sample_rate) ;;
    (if 0 <=? emulator then
       r <- Traits_switch_emulator emulator ;;
       if r <? 0 then throw "error selecting emulator"
       else assign (set_player_emulator_id emulator)
     else ret tt) ;;
    match bankfile with
    | None => ret tt
    | Some file =>
      r <- Traits_open_bank_file file ;;
      if r <? 0 then throw "error loading bank file"
      else assign (set_player_bank_file (Some file))
    end ;;
    r <- Traits_set_num_chips nchip ;;
    if r <? 0 then throw "error setting the number of chips"
    else
      assign (fun w =>
        let cutoff := PrimFloat.div dccutoff (double_of_Z sample_rate) in
        let release := PrimFloat.mul lvrelease (double_of_Z sample_rate) in
        set_lvmonitor (vu_release (fst (lvmonitor w)) release,
                       vu_release (snd (lvmonitor w)) release)
          (set_dcfilter (dc_cutoff (fst (dcfilter w)) cutoff,
                         dc_cutoff (snd (dcfilter w)) cutoff) w))
  end.

(** *** [generic_play_midi] *)

(** [case 0b1000]: also reached by falling through from [case 0b1001]
    when the velocity is zero. *)
Definition case_note_off (msg : list byte) (len channel : Z) : M unit :=
  if len <? 3 then ret tt
  else Traits_rt_note_off channel (msg_at msg 1).

(** The [switch (status >> 4)]. *)
Definition dispatch (msg : list byte) (len status channel : Z) : M unit :=
  match Z.shiftr status 4 with
  | 9 =>
    if len <? 3 then ret tt
    else if negb (msg_at msg 2 =? 0)
    then Traits_rt_note_on channel (msg_at msg 1) (msg_at msg 2)
    else case_note_off msg len channel
  | 8 => case_note_off msg len channel
  | 10 =>
    if len <? 3 then ret tt
    else Traits_rt_note_aftertouch channel (msg_at msg 1) (msg_at msg 2)
  | 13 =>
    if len <? 2 then ret tt
    else Traits_rt_channel_aftertouch channel (msg_at msg 1)
  | 11 =>
    if len <? 3 then ret tt
    else Traits_rt_controller_change channel (msg_at msg 1) (msg_at msg 2)
  | 12 =>
    if len <? 2 then ret tt
    else
      let pgm := Z.land (msg_at msg 1) 127 in
      Traits_rt_program_change channel pgm ;;
      assign (fun w =>
        set_channel_map
          (alter (set_gm pgm) (Z.to_nat channel) (channel_map w)) w)
  | 14 =>
    if len <? 3 then ret tt
    else Traits_rt_pitchbend_ml channel (msg_at msg 2) (msg_at msg 1)
  | _ => ret tt
  end.

(** The body of [generic_play_midi] once the lock is owned. *)
Definition play_midi_locked (msg : list byte) (len : Z) : M unit :=
  if len <=? 0 then ret tt
  else
    let status := msg_at msg 0 in
    if Z.land status 240 =? 240 then ret tt
    else
      let channel := Z.land status 15 in
      dispatch msg len status channel.

Definition generic_play_midi (msg : list byte) (len : Z) : M unit :=
  owns <- try_lock ;;
  if negb owns then ret tt
  else play_midi_locked msg len ;; unlock.

(** *** [generic_generate_outputs] *)

(** The offset [i * stride] of frame [i], computed on [unsigned]. *)
Definition frame_offset (i stride : Z) : Z := u32 (i * stride).

(** The body of the loop that runs when the lock is not owned. *)
Definition silence_frame (left right stride i : Z) (_ : unit) : M unit :=
  let leftp := left + frame_offset i stride in
  let rightp := right + frame_offset i stride in
  write leftp 0%float ;;
  write rightp 0%float.

Definition outputgain : double := 1%float.

(** The body of the post-processing loop; the value threaded through is
    the local [lvcurrent], which every iteration assigns. *)
Definition process_frame (left right stride i : Z) (_ : double * double)
  : M (double * double) :=
  let leftp := left + frame_offset i stride in
  let rightp := right + frame_offset i stride in
  l <- load leftp ;;
  left_sample <- dcfilter_process 0 (PrimFloat.mul outputgain l) ;;
  r <- load rightp ;;
  right_sample <- dcfilter_process 1 (PrimFloat.mul outputgain r) ;;
  lv0 <- lvmonitor_process 0 left_sample ;;
  lv1 <- lvmonitor_process 1 right_sample ;;
  write leftp (float_of_double left_sample) ;;
  write rightp (float_of_double right_sample) ;;
  ret (lv0, lv1).

(** [1e-6] as the nearest [double]. *)
Definition micro : double := 0x1.0c6f7a0b5ed8dp-20%float.

(** [stc::duration_cast<stc::microseconds>(d).count()] for a duration in
    nanoseconds: truncation toward zero. *)
Definition microseconds (d_gen : Z) : Z := Z.quot d_gen 1000.

Definition generic_generate_outputs (left right nframes stride : Z)
  : M unit :=
  if nframes <=? 0 then ret tt
  else
    owns <- try_lock ;;
    if negb owns then
      for_frames (Z.to_nat nframes) 0 (silence_frame left right stride) tt
    else
      let format :=
        mkAudioFormat ADLMIDI_SampleType_F32 sizeof_float
                      (u32 (stride * sizeof_float)) in
      t_before_gen <- now ;;
      Traits_generate_format (u32 (2 * nframes)) left right format ;;
      t_after_gen <- now ;;
      unlock ;;
      lvcurrent' <-
        for_frames (Z.to_nat nframes) 0 (process_frame left right stride)
                   (PrimFloat.zero, PrimFloat.zero) ;;
      emit (EvStore TLevel) ;;
      assign (set_lvcurrent lvcurrent') ;;
      let d_gen := t_after_gen - t_before_gen in
      let d_sec := PrimFloat.mul micro (double_of_Z (microseconds d_gen)) in
      emit (EvStore TCpuRatio) ;;
      assign (fun w =>
        set_cpuratio
          (PrimFloat.div d_sec
             (PrimFloat.div (double_of_Z nframes)
                (double_of_Z (player_sample_rate w)))) w).

(** *** The dynamic reconfiguration operations *)

Definition generic_player_dynamic_set_chip_count (nchip : Z) : M unit :=
  lock_guard ;;
  Traits_panic ;;
  _ <- Traits_set_num_chips nchip ;;
  unlock.

Definition generic_player_dynamic_set_emulator (emulator : Z) : M unit :=
  lock_guard ;;
  Traits_panic ;;
  r <- Traits_switch_emulator emulator ;;
  if r <? 0 then unlock
  else
    assign (set_player_emulator_id emulator) ;;
    unlock.

Definition generic_player_dynamic_load_bank (bankfile : string) : M bool :=
  lock_guard ;;
  Traits_panic ;;
  r <- Traits_open_bank_file bankfile ;;
  if r <? 0 then unlock ;; ret false
  else
    assign (set_player_bank_file (Some bankfile)) ;;
    unlock ;;
    ret true.

End PlayerLayer.

(* ===================================================================== *)
(** ** Reading the log and building messages *)
(* ===================================================================== *)

(** The calls that reached the backend, oldest first. *)
Fixpoint backend_calls (t : list Event) : list Call :=
  match t with
  | [] => []
  | EvBackend c :: t' => c :: backend_calls t'
  | _ :: t' => backend_calls t'
  end.


(** Events of the post-processing stage: DC filtering, level monitoring
    and telemetry stores. *)
Definition is_post_processing (e : Event) : bool :=
  match e with
  | EvDcFilter _ | EvVuMonitor _ | EvStore _ => true
  | _ => false
  end.

(** The status byte with high nibble [kind] and low nibble [channel]. *)
Definition status_byte (kind channel : Z) : byte :=
  match Byte.of_N (Z.to_N (16 * kind + channel)) with
  | Some b => b
  | None => x00
  end.

(** The length a channel message needs, by the high nibble of its status:
    three bytes for note-off, note-on, polyphonic aftertouch, controller
    change and pitch bend, two for program change and channel aftertouch. *)
Definition required_length (status : Z) : option Z :=
  match Z.shiftr status 4 with
  | 8 | 9 | 10 | 11 | 14 => Some 3
  | 12 | 13 => Some 2
  | _ => None
  end.

(* ===================================================================== *)
(** ** A small backend on which the layer runs *)
(* ===================================================================== *)

Module Sim.

(** A player that accepts emulators [0] and [1], between [1] and [100]
    chips and every bank file but ["nonexistent.wopl"], remembers the
    real-time events it received and renders a constant signal. *)
Record SimPlayer := mkSim {
  sim_rate : Z;
  sim_emulator : Z;
  sim_chips : Z;
  sim_bank : option string;
  sim_events : list Call
}.

Definition sim_event (c : Call) (p : SimPlayer) : SimPlayer :=
  mkSim (sim_rate p) (sim_emulator p) (sim_chips p) (sim_bank p)
        (sim_events p ++ [c]).

(** Frame [i] of a render: one sample at [left] and one at [right], each
    advanced by [i] times the sample offset (in containers). *)
Fixpoint sim_render (k : nat) (i left right step : Z) (m : Mem) : Mem :=
  match k with
  | O => m
  | S k' =>
    sim_render k' (i + 1) left right step
      (store (store m (left + i * step) 0.25%float)
             (right + i * step) 0.25%float)
  end.

#[global] Instance sim_traits : Player_Traits SimPlayer := {
  init rate :=
    if 0 <? rate then Some (mkSim rate 0 1 None []) else None;
  switch_emulator p e :=
    if (0 <=? e) && (e <? 2)
    then (mkSim (sim_rate p) e (sim_chips p) (sim_bank p) (sim_events p), 0)
    else (p, -1);
  open_bank_file p file :=
    if String.eqb file "nonexistent.wopl" then (p, -1)
    else (mkSim (sim_rate p) (sim_emulator p) (sim_chips p) (Some file)
                (sim_events p), 0);
  set_num_chips p n :=
    if (1 <=? n) && (n <=? 100)
    then (mkSim (sim_rate p) (sim_emulator p) n (sim_bank p) (sim_events p), 0)
    else (p, -1);
  get_num_chips p := sim_chips p;
  panic p := sim_event CPanic p;
  rt_note_on p ch k v := sim_event (CNoteOn ch k v) p;
  rt_note_off p ch k := sim_event (CNoteOff ch k) p;
  rt_note_aftertouch p ch k v := sim_event (CNoteAftertouch ch k v) p;
  rt_channel_aftertouch p ch v := sim_event (CChannelAftertouch ch v) p;
  rt_controller_change p ch c v := sim_event (CControllerChange ch c v) p;
  rt_program_change p ch pgm := sim_event (CProgramChange ch pgm) p;
  rt_pitchbend_ml p ch msb lsb := sim_event (CPitchBend ch msb lsb) p;
  generate_format p n left right format m :=
    (p, sim_render (Z.to_nat (n / 2)) 0 left right
          (sampleOffset format / containerSize format) m)
}.

(** A one-pole DC blocker [y = x - x1 + r * y1] and a peak follower with
    instantaneous attack and exponential release. *)
Record SimDc := mkDc { dc_r : double; dc_x1 : double; dc_y1 : double }.
Record SimVu := mkVu { vu_k : double; vu_level : double }.

#[global] Instance sim_conditioner : Signal_Conditioner SimDc SimVu := {
  dc_cutoff f c := mkDc (PrimFloat.sub 1%float c) (dc_x1 f) (dc_y1 f);
  dc_process f x :=
    let y := PrimFloat.add (PrimFloat.sub x (dc_x1 f))
                           (PrimFloat.mul (dc_r f) (dc_y1 f)) in
    (mkDc (dc_r f) x y, y);
  vu_release m n := mkVu (PrimFloat.sub 1%float (PrimFloat.div 1%float n))
                         (vu_level m);
  vu_process m x :=
    let a := PrimFloat.abs x in
    let decayed := PrimFloat.mul (vu_k m) (vu_level m) in
    let l := if PrimFloat.ltb decayed a then a else decayed in
    (mkVu (vu_k m) l, l)
}.

Definition SimWorld := World SimPlayer SimDc SimVu.

(** The state before start-up: all buffers hold [1], the clock advances
    by 2.9 ms from one reading to the next, and the mutex is free. *)
Definition blank : SimWorld :=
  mkWorld (mkSim 44100 0 1 None []) None
    (mkDc 0%float 0%float 0%float, mkDc 0%float 0%float 0%float)
    (mkVu 0%float 0%float, mkVu 0%float 0%float)
    (0%float, 0%float) 0%float
    (replicate 16 (mkProgram 0)) 0 0 false
    (fun _ => 1%float)
    (fun k => Z.of_nat k * 2900000) 0%nat [].

(** The state after start-up at 44100 Hz with 2 chips, the default bank
    and emulator 0 (DC cutoff 5 Hz, level release 20 ms). *)
Definition started : SimWorld :=
  exec (generic_initialize_player 0x1.4p+2%float 0x1.47ae147ae147bp-6%float
          44100 2 None 0) blank.

(** The same state while another thread holds the mutex. *)
Definition contended : SimWorld := set_player_mutex true started.

End Sim.

(* ===================================================================== *)
(** ** Vocabulary of the statements *)
(* ===================================================================== *)

(** A message [generic_play_midi] has to drop: empty, with a status of
    high nibble [0xF], or shorter than its status requires. *)
Definition malformed (msg : list byte) (len : Z) : Prop :=
  len = 0 \/
  Z.land (msg_at msg 0) 240 = 240 \/
  exists r, required_length (msg_at msg 0) = Some r /\ len < r.

(** An address that is no sample of the frames [i .. i + k - 1], as
    [generic_generate_outputs] addresses them. *)
Definition off_frames (left right stride i : Z) (k : nat) (a : Z) : Prop :=
  forall j, i <= j < i + Z.of_nat k ->
    a <> left + frame_offset j stride /\ a <> right + frame_offset j stride.

(** The format descriptor [generic_generate_outputs] hands to the backend. *)
Definition render_format (stride : Z) : AudioFormat :=
  mkAudioFormat ADLMIDI_SampleType_F32 sizeof_float
                (u32 (stride * sizeof_float)).

(** Modelled from the spec: the contract of the backend's render operation
    ([Traits::generate_format], outside [common.cc]), which "synthesizes
    frameCount interleaved-or-strided stereo frames into caller-provided
    buffers": for [sampleCount] sample slots it writes at most the frames
    [i < sampleCount / 2] of each buffer, [sampleOffset] bytes apart. *)
Definition render_footprint (sampleCount left right : Z)
  (format : AudioFormat) (a : Z) : Prop :=
  exists i, 0 <= i < sampleCount / 2 /\
    (a = left + i * (sampleOffset format / containerSize format) \/
     a = right + i * (sampleOffset format / containerSize format)).

Definition strided_renderer {Player : Type} {Traits : Player_Traits Player}
  : Prop :=
  forall (p : Player) (sampleCount left right : Z) (format : AudioFormat)
         (m : Mem) (a : Z),
    ~ render_footprint sampleCount left right format a ->
    snd (generate_format p sampleCount left right format m) a = m a.

Section Vocabulary.
Context {Player DcFilter VuMonitor : Type}.
Local Abbreviation W := (World Player DcFilter VuMonitor).

(** What the post-processing loop of [generic_generate_outputs] leaves
    alone. *)
Definition same_registry (w w' : W) : Prop :=
  player w' = player w /\
  player_bank_file w' = player_bank_file w /\
  channel_map w' = channel_map w /\
  player_sample_rate w' = player_sample_rate w /\
  player_emulator_id w' = player_emulator_id w /\
  player_mutex w' = player_mutex w /\
  steady_clock w' = steady_clock w /\
  clock_reads w' = clock_reads w /\
  cpuratio w' = cpuratio w.

(** The events of [generic_generate_outputs] up to the release of the
    lock, when the lock is taken. *)
Definition render_events (left right stride : Z) (w : W) (nframes : Z)
  : list Event :=
  [EvTryLock true;
   EvNow (steady_clock w (clock_reads w));
   EvBackend (CGenerateFormat (u32 (2 * nframes)) left right
                (render_format stride));
   EvNow (steady_clock w (S (clock_reads w)));
   EvUnlock].

(** The load ratio [generic_generate_outputs] computes from the two clock
    readings around the render call. *)
Definition load_ratio (w : W) (nframes : Z) : double :=
  let d_gen :=
    steady_clock w (S (clock_reads w)) - steady_clock w (clock_reads w) in
  PrimFloat.div
    (PrimFloat.mul micro (double_of_Z (microseconds d_gen)))
    (PrimFloat.div (double_of_Z nframes) (double_of_Z (player_sample_rate w))).

End Vocabulary.

(* ===================================================================== *)
(** ** The rest of [common.cc]: names, command line, status bar *)
(* ===================================================================== *)

From Stdlib Require Import Strings.Ascii.

(** [int] is 32 bits wide: the value of an [unsigned] read back as [int]. *)
Definition s32 (z : Z) : Z :=
  let r := u32 z in if r <? 2 ^ 31 then r else r - 2 ^ 32.

(** The members of [Player_Traits<Pt>] that only describe the backend. *)
Class Player_Names (Player : Type) := {
  Traits_name : string;
  Traits_version : string;
  emulator_name : Player -> string
}.

Section Enumerate_emulators.
Context {Player : Type}.
Context {Traits : Player_Traits Player}.
Context {Names : Player_Names Player}.

(** The loop of [generic_enumerate_emulators],
    [for (unsigned i = 0; Traits::switch_emulator(player, i) == 0; ++i)],
    cut after [fuel] tests of its condition: [None] when it has not ended
    by then. *)
Fixpoint enumerate_loop (fuel : nat) (i : Z) (p : Player)
  (names : list string) : option (list string) :=
  match fuel with
  | O => None
  | S fuel' =>
    let r := switch_emulator p i in
    if snd r =? 0
    then enumerate_loop fuel' (u32 (i + 1)) (fst r)
           (names ++ [emulator_name (fst r)])
    else Some names
  end.

(** [generic_enumerate_emulators]: the loop on a fresh player of 44100 Hz.
    The source does not test the player [Traits::init] returns; the model
    has no result when there is none. *)
Definition generic_enumerate_emulators (fuel : nat) : option (list string) :=
  match init 44100 with
  | Some p => enumerate_loop fuel 0 p []
  | None => None
  end.

End Enumerate_emulators.

(** What a run of [generic_getopt] ends with: a returned value, a call of
    [exit], or an exception of [std::stoi]. *)
Inductive Getopt_result :=
| Returned (c : Z)
| Exited (status : Z)
| Raised (what : string).

(** What a run of [generic_getopt] shows: text on [stderr], its own and
    that of [getopt], and calls of the usage function. *)
Inductive Getopt_event :=
| Stderr (text : string)
| Usage.

(** One call of [getopt] as [generic_getopt] sees it: the value it
    returned, [optarg], and the diagnostic it wrote on [stderr] itself
    ([opterr] is left at 1), empty when it wrote none. *)
Record Getopt_call := mkGetopt_call {
  returned : Z;
  optarg : string;
  diagnostic : string
}.

(** What [getopt] itself wrote on [stderr] during a series of calls, in
    order. *)
Definition getopt_diagnostics (calls : list Getopt_call)
  : list Getopt_event :=
  map Stderr
    (List.filter (fun text => negb (String.eqb text EmptyString))
            (map diagnostic calls)).

(** The line feed that ends the messages of [generic_getopt]. *)
Definition newline : string := String "010"%char EmptyString.

Section Command_line.
(** [enum class Player_Type], [all_player_types] and the names the
    backends give themselves are declared outside [common.cc]. *)
Variable Player_Type : Type.
Variable all_player_types : list Player_Type.
Variable player_name : Player_Type -> string.
(** [std::stoi]: the [int] it returns, or the exception it throws. *)
Variable stoi : string -> Res Z.
(** Whether [ADLJACK_USE_CURSES] is defined. *)
Variable curses : bool.

(** [player_by_name]: the first player type of that name; [None] stands
    for the value [(Player_Type)-1]. *)
Definition player_by_name (name : string) : option Player_Type :=
  find (fun pt => String.eqb name (player_name pt)) all_player_types.

(** The globals [generic_getopt] assigns, and what it has shown. *)
Record Args := mkArgs {
  player_type : option Player_Type;
  arg_nchip : Z;
  arg_bankfile : option string;
  arg_emulator : Z;
  arg_simple_interface : bool;
  shown : list Getopt_event
}.

Definition show (e : Getopt_event) (a : Args) : Args :=
  mkArgs (player_type a) (arg_nchip a) (arg_bankfile a) (arg_emulator a)
         (arg_simple_interface a) (shown a ++ [e]).

(** The option characters of [generic_getopt]. *)
Definition opt_p : Z := 112.
Definition opt_n : Z := 110.
Definition opt_b : Z := 98.
Definition opt_e : Z := 101.
Definition opt_h : Z := 104.
Definition opt_t : Z := 116.

(** What [getopt] wrote on [stderr] during a call, if anything. *)
Definition show_diagnostic (text : string) (a : Args) : Args :=
  if String.eqb text EmptyString then a else show (Stderr text) a.

(** [generic_getopt] over the successive calls of [getopt]. *)
Fixpoint generic_getopt (calls : list Getopt_call) (a0 : Args)
  : Getopt_result * Args :=
  match calls with
  | [] => (Returned (-1), a0)
  | g :: rest =>
    let a := show_diagnostic (diagnostic g) a0 in
    let c := returned g in
    if c =? -1 then (Returned (-1), a)
    else if c =? opt_p then
      let a' := mkArgs (player_by_name (optarg g)) (arg_nchip a)
                  (arg_bankfile a) (arg_emulator a)
                  (arg_simple_interface a) (shown a) in
      match player_type a' with
      | None =>
        (Exited 1,
         show (Stderr (String.append "invalid player name" newline)) a')
      | Some _ => generic_getopt rest a'
      end
    else if c =? opt_n then
      match stoi (optarg g) with
      | Throw what => (Raised what, a)
      | Ok n =>
        let a' := mkArgs (player_type a) (u32 n) (arg_bankfile a)
                    (arg_emulator a) (arg_simple_interface a) (shown a) in
        if s32 (arg_nchip a') <? 1
        then (Exited 1,
              show (Stderr (String.append "invalid number of chips" newline))
                   a')
        else generic_getopt rest a'
      end
    else if c =? opt_b then
      generic_getopt rest
        (mkArgs (player_type a) (arg_nchip a) (Some (optarg g))
           (arg_emulator a) (arg_simple_interface a) (shown a))
    else if c =? opt_e then
      match stoi (optarg g) with
      | Throw what => (Raised what, a)
      | Ok n =>
        generic_getopt rest
          (mkArgs (player_type a) (arg_nchip a) (arg_bankfile a) n
             (arg_simple_interface a) (shown a))
      end
    else if c =? opt_h then (Exited 0, show Usage a)
    else if (c =? opt_t) && curses then
      generic_getopt rest
        (mkArgs (player_type a) (arg_nchip a) (arg_bankfile a)
           (arg_emulator a) true (shown a))
    else (Returned c, a)
  end.

End Command_line.

Arguments mkArgs {Player_Type}.
Arguments player_type {Player_Type} a.
Arguments arg_nchip {Player_Type} a.
Arguments arg_bankfile {Player_Type} a.
Arguments arg_emulator {Player_Type} a.
Arguments arg_simple_interface {Player_Type} a.
Arguments shown {Player_Type} a.
Arguments show {Player_Type} e a.
Arguments show_diagnostic {Player_Type} text a.

(** The cells of [print_volume_bar]: [k] iterations of
    [for (unsigned i = 0; i < size; ++i)] from index [i], each printing
    ['*'] when [vol > (double)i / size] and ['-'] otherwise. *)
Fixpoint volume_bar_cells (k : nat) (i size : Z) (vol : double) : string :=
  match k with
  | O => EmptyString
  | S k' =>
    let ref := PrimFloat.div (double_of_Z i) (double_of_Z size) in
    String (if PrimFloat.ltb ref vol then "*"%char else "-"%char)
           (volume_bar_cells k' (i + 1) size vol)
  end.

(** [print_volume_bar(out, size, vol)]: the text it prints. *)
Definition print_volume_bar (size : Z) (vol : double) : string :=
  if size <? 2 then EmptyString
  else String.append "["
         (String.append (volume_bar_cells (Z.to_nat size) 0 size vol) "]").

(** The events of one frame of the post-processing loop of
    [generic_generate_outputs]. *)
Definition frame_events : list Event :=
  [EvDcFilter 0; EvDcFilter 1; EvVuMonitor 0; EvVuMonitor 1].

Section Dispatched.
Context {Player DcFilter VuMonitor : Type}.
Context {Traits : Player_Traits Player}.
Local Abbreviation W := (World Player DcFilter VuMonitor).

(** The three things the [switch] of [generic_play_midi] can do with a
    message: nothing, one call of the backend, or the call and the
    assignment of a program change. *)
Inductive Dispatched (msg : list byte) (channel : Z)
  : M Player DcFilter VuMonitor unit -> Prop :=
| Dispatched_nothing : Dispatched msg channel (ret tt)
| Dispatched_call (c : Call) (f : Player -> Player) :
    Dispatched msg channel (call c f)
| Dispatched_program :
    Dispatched msg channel
      (Traits_rt_program_change channel (Z.land (msg_at msg 1) 127) ;;
       assign (fun w : W =>
         set_channel_map
           (alter (set_gm (Z.land (msg_at msg 1) 127)) (Z.to_nat channel)
                  (channel_map w)) w)).

End Dispatched.

Section Realtime_state.
Context {Player DcFilter VuMonitor : Type}.
Local Abbreviation W := (World Player DcFilter VuMonitor).

(** The state of the real-time path, which none of the three dynamic
    reconfiguration operations changes. *)
Definition same_realtime_state (w w' : W) : Prop :=
  channel_map w' = channel_map w /\
  heap w' = heap w /\
  player_sample_rate w' = player_sample_rate w /\
  dcfilter w' = dcfilter w /\
  lvmonitor w' = lvmonitor w /\
  lvcurrent w' = lvcurrent w /\
  cpuratio w' = cpuratio w /\
  clock_reads w' = clock_reads w.

End Realtime_state.

(** The members of [Player_Traits] and the parts of the command line on
    the small backend. *)
Module SimNames.

#[global] Instance sim_names : Player_Names Sim.SimPlayer := {
  Traits_name := "SIM";
  Traits_version := "1.0";
  emulator_name p :=
    if Sim.sim_emulator p =? 0 then "Nuked" else "DosBox"
}.

Inductive Sim_Player_Type := OPL3 | OPN2.

Definition sim_player_name (pt : Sim_Player_Type) : string :=
  match pt with OPL3 => "ADLMIDI" | OPN2 => "OPNMIDI" end.

(** A [stoi] for one or two decimal digits with an optional sign. *)
Definition digit (c : Ascii.ascii) : option Z :=
  let n := Z.of_N (Ascii.N_of_ascii c) in
  if (48 <=? n) && (n <=? 57) then Some (n - 48) else None.

Definition sim_stoi_unsigned (s : string) : Res Z :=
  match s with
  | String c EmptyString =>
    match digit c with Some d => Ok d | None => Throw "stoi" end
  | String c (String c' EmptyString) =>
    match digit c, digit c' with
    | Some d, Some d' => Ok (10 * d + d')
    | _, _ => Throw "stoi"
    end
  | _ => Throw "stoi"
  end.

Definition sim_stoi (s : string) : Res Z :=
  match s with
  | String "-"%char rest =>
    match sim_stoi_unsigned rest with
    | Ok n => Ok (- n)
    | Throw what => Throw what
    end
  | _ => sim_stoi_unsigned s
  end.

(** A backend that accepts every emulator id. *)
#[global] Instance any_traits : Player_Traits unit := {
  init _ := Some tt;
  switch_emulator p _ := (p, 0);
  open_bank_file p _ := (p, 0);
  set_num_chips p _ := (p, 0);
  get_num_chips _ := 1;
  panic p := p;
  rt_note_on p _ _ _ := p;
  rt_note_off p _ _ := p;
  rt_note_aftertouch p _ _ _ := p;
  rt_channel_aftertouch p _ _ := p;
  rt_controller_change p _ _ _ := p;
  rt_program_change p _ _ := p;
  rt_pitchbend_ml p _ _ _ := p;
  generate_format p _ _ _ _ m := (p, m)
}.

#[global] Instance any_names : Player_Names unit := {
  Traits_name := "ANY";
  Traits_version := "0";
  emulator_name _ := "any"
}.

(** The globals before the command line is read: [default_nchip] chips
    (taken as 4), no bank file, emulator [-1]. *)
Definition defaults : Args Sim_Player_Type :=
  mkArgs (Some OPL3) 4 None (-1) false [].

End SimNames.

(* ===================================================================== *)
(** ** Bytes and status decoding *)
(* ===================================================================== *)

Lemma u8_range (b : byte) : 0 <= u8 b < 256.
Proof.
  unfold u8. pose proof (Byte.to_N_bounded b) as H.
  split; [apply N2Z.is_nonneg|]. lia.
Qed.

Lemma u8_status_byte (kind channel : Z) :
  0 <= kind < 16 -> 0 <= channel < 16 ->
  u8 (status_byte kind channel) = 16 * kind + channel.
Proof.
  intros Hk Hc. unfold status_byte, u8.
  destruct (Byte.of_N (Z.to_N (16 * kind + channel))) as [b|] eqn:E.
  - apply Byte.to_of_N in E. rewrite E. apply Z2N.id. lia.
  - apply Byte.of_N_None_iff in E. lia.
Qed.

Ltac channel_cases ch :=
  let H := fresh "H" in
  assert (H : ch = 0 \/ ch = 1 \/ ch = 2 \/ ch = 3 \/ ch = 4 \/ ch = 5 \/
              ch = 6 \/ ch = 7 \/ ch = 8 \/ ch = 9 \/ ch = 10 \/ ch = 11 \/
              ch = 12 \/ ch = 13 \/ ch = 14 \/ ch = 15) by lia;
  repeat (destruct H as [H | H]; [subst ch | ]); [.. | subst ch].

(** A status byte built from a channel-message nibble decodes to it. *)
Lemma status_byte_decode (kind channel : Z) :
  8 <= kind < 15 -> 0 <= channel < 16 ->
  let status := u8 (status_byte kind channel) in
  (Z.land status 240 =? 240) = false /\
  Z.shiftr status 4 = kind /\
  Z.land status 15 = channel.
Proof.
  intros Hk Hc. cbv zeta. rewrite u8_status_byte by lia.
  assert (Hkind : kind = 8 \/ kind = 9 \/ kind = 10 \/ kind = 11 \/
                  kind = 12 \/ kind = 13 \/ kind = 14) by lia.
  channel_cases channel;
    (repeat (destruct Hkind as [Hkind | Hkind]; [subst kind | ]);
     [.. | subst kind]); repeat split; reflexivity.
Qed.

(* ===================================================================== *)
(** ** Reading the log *)
(* ===================================================================== *)

Lemma backend_calls_app (a b : list Event) :
  backend_calls (a ++ b) = backend_calls a ++ backend_calls b.
Proof.
  induction a as [|e a IH]; [reflexivity|].
  destruct e; simpl; rewrite IH; reflexivity.
Qed.


(* ===================================================================== *)
(** ** [generic_play_midi] *)
(* ===================================================================== *)

Section Play_midi.
Context {Player DcFilter VuMonitor : Type}.
Context {Traits : Player_Traits Player}.
Context {Conditioner : Signal_Conditioner DcFilter VuMonitor}.
Local Abbreviation W := (World Player DcFilter VuMonitor).

(** A message shorter than its status requires leaves the [switch]
    without doing anything. *)
Lemma dispatch_short (msg : list byte) (len status channel r : Z) :
  required_length status = Some r -> len < r ->
  dispatch (DcFilter := DcFilter) (VuMonitor := VuMonitor)
    msg len status channel = ret tt.
Proof.
  unfold required_length, dispatch, case_note_off.
  destruct (Z.shiftr status 4) as [|p|p]; try discriminate.
  do 4 (try destruct p as [p|p|]); try discriminate;
    intros [= <-] Hlen;
    (destruct (Z.ltb_spec len 3) as [_|Hge]; [|lia]) ||
    (destruct (Z.ltb_spec len 2) as [_|Hge]; [|lia]);
    reflexivity.
Qed.

Lemma play_midi_locked_malformed (msg : list byte) (len : Z) :
  malformed msg len ->
  play_midi_locked (DcFilter := DcFilter) (VuMonitor := VuMonitor)
    msg len = ret tt.
Proof.
  intros [-> | [Hsys | (r & Hr & Hlen)]]; unfold play_midi_locked.
  - reflexivity.
  - destruct (len <=? 0); [reflexivity|].
    rewrite Hsys. reflexivity.
  - destruct (len <=? 0); [reflexivity|].
    destruct (Z.land (msg_at msg 0) 240 =? 240); [reflexivity|].
    eapply dispatch_short; eassumption.
Qed.

(** C6: an empty message, a message whose status has high nibble [0xF]
    and a message shorter than its type requires are dropped: the call
    returns normally (no error is signalled), the backend receives no call
    and its player is untouched, and [channel_map] keeps its contents. *)
Theorem play_midi_malformed_dropped (w : W) (msg : list byte) (len : Z) :
  malformed msg len ->
  outcome (generic_play_midi msg len) w = Ok tt /\
  player (exec (generic_play_midi msg len) w) = player w /\
  backend_calls (trace (exec (generic_play_midi msg len) w))
    = backend_calls (trace w) /\
  channel_map (exec (generic_play_midi msg len) w) = channel_map w.
Proof.
  intros Hbad.
  unfold outcome, exec, generic_play_midi, bind, try_lock.
  rewrite (play_midi_locked_malformed msg len Hbad).
  destruct (player_mutex w); simpl;
    rewrite ?backend_calls_app; simpl; rewrite ?app_nil_r; auto.
Qed.

Lemma play_midi_locked_note_off (ch : Z) (key vel : byte) (rest : list byte)
  (len : Z) :
  0 <= ch < 16 -> 3 <= len ->
  play_midi_locked (DcFilter := DcFilter) (VuMonitor := VuMonitor)
    (status_byte 8 ch :: key :: vel :: rest) len
  = Traits_rt_note_off ch (u8 key).
Proof.
  intros Hch Hlen.
  destruct (status_byte_decode 8 ch) as (Hsys & Hkind & Hchan); [lia..|].
  unfold play_midi_locked, msg_at. cbn [nth].
  destruct (Z.leb_spec len 0); [lia|].
  rewrite Hsys, Hchan. unfold dispatch. rewrite Hkind.
  unfold case_note_off, msg_at. cbn [nth].
  destruct (Z.ltb_spec len 3); [lia|]. reflexivity.
Qed.

Lemma play_midi_locked_note_on_zero (ch : Z) (key : byte) (rest : list byte)
  (len : Z) :
  0 <= ch < 16 -> 3 <= len ->
  play_midi_locked (DcFilter := DcFilter) (VuMonitor := VuMonitor)
    (status_byte 9 ch :: key :: x00 :: rest) len
  = Traits_rt_note_off ch (u8 key).
Proof.
  intros Hch Hlen.
  destruct (status_byte_decode 9 ch) as (Hsys & Hkind & Hchan); [lia..|].
  unfold play_midi_locked, msg_at. cbn [nth].
  destruct (Z.leb_spec len 0); [lia|].
  rewrite Hsys, Hchan. unfold dispatch. rewrite Hkind.
  unfold case_note_off, msg_at. cbn [nth].
  destruct (Z.ltb_spec len 3); [lia|].
  change (u8 x00 =? 0) with true. reflexivity.
Qed.

(** C2: a Note-On with velocity zero is a Note-Off. On every state, and
    for every channel, key and lengths of at least three bytes, the call
    for [0x9c key 0] is the call for [0x8c key vel]; when the lock is
    taken the backend receives exactly one call, the note-off of that
    channel and key, and no note-on. *)
Theorem note_on_velocity_zero_is_note_off (w : W) (ch : Z) (key vel : byte)
  (rest_on rest_off : list byte) (len_on len_off : Z) :
  0 <= ch < 16 -> 3 <= len_on -> 3 <= len_off ->
  let note_on := status_byte 9 ch :: key :: x00 :: rest_on in
  let note_off := status_byte 8 ch :: key :: vel :: rest_off in
  generic_play_midi note_on len_on w = generic_play_midi note_off len_off w /\
  (player_mutex w = false ->
   outcome (generic_play_midi note_on len_on) w = Ok tt /\
   player (exec (generic_play_midi note_on len_on) w)
     = rt_note_off (player w) ch (u8 key) /\
   trace (exec (generic_play_midi note_on len_on) w)
     = trace w ++ [EvTryLock true; EvBackend (CNoteOff ch (u8 key)); EvUnlock]).
Proof.
  intros Hch Hon Hoff note_on note_off. subst note_on note_off.
  unfold outcome, exec, generic_play_midi.
  rewrite play_midi_locked_note_on_zero, play_midi_locked_note_off by lia.
  split; [reflexivity|].
  intros Hfree. unfold bind, try_lock. rewrite Hfree. simpl.
  rewrite <- !app_assoc. auto.
Qed.

(** C3: a Program-Change of at least two bytes, processed with the lock
    taken, forwards the program masked to seven bits to the backend and
    records it in the [channel_map] entry of its channel; the other
    entries keep their contents. *)
Theorem program_change_recorded (w : W) (ch : Z) (p : byte)
  (rest : list byte) (len : Z) :
  0 <= ch < 16 -> 2 <= len ->
  player_mutex w = false ->
  length (channel_map w) = 16%nat ->
  let w' := exec (generic_play_midi (status_byte 12 ch :: p :: rest) len) w in
  channel_map w' !! Z.to_nat ch = Some (mkProgram (Z.land (u8 p) 127)) /\
  (forall j : nat, j <> Z.to_nat ch -> channel_map w' !! j = channel_map w !! j) /\
  player w' = rt_program_change (player w) ch (Z.land (u8 p) 127) /\
  trace w' = trace w ++ [EvTryLock true;
                         EvBackend (CProgramChange ch (Z.land (u8 p) 127));
                         EvUnlock].
Proof.
  intros Hch Hlen Hfree Hmap.
  destruct (status_byte_decode 12 ch) as (Hsys & Hkind & Hchan); [lia..|].
  unfold exec, generic_play_midi, bind, try_lock. rewrite Hfree. simpl.
  unfold play_midi_locked, msg_at. cbn [nth].
  destruct (Z.leb_spec len 0); [lia|].
  rewrite Hsys, Hchan. unfold dispatch. rewrite Hkind.
  destruct (Z.ltb_spec len 2); [lia|].
  unfold msg_at. cbn [nth]. simpl.
  rewrite <- !app_assoc. simpl.
  assert (Hlt : (Z.to_nat ch < length (channel_map w))%nat) by lia.
  destruct (lookup_lt_is_Some_2 _ _ Hlt) as [old Hold].
  repeat split.
  - rewrite list_lookup_alter_eq, Hold. destruct old. reflexivity.
  - intros j Hj. apply list_lookup_alter_ne. congruence.
Qed.

End Play_midi.

(* ===================================================================== *)
(** ** [generic_generate_outputs] *)
(* ===================================================================== *)

Section Generate_outputs.
Context {Player DcFilter VuMonitor : Type}.
Context {Traits : Player_Traits Player}.
Context {Conditioner : Signal_Conditioner DcFilter VuMonitor}.
Local Abbreviation W := (World Player DcFilter VuMonitor).

Variables left right stride : Z.

Lemma off_frames_tail (i : Z) (k : nat) (a : Z) :
  off_frames left right stride i (S k) a -> off_frames left right stride (i + 1) k a.
Proof. intros H j Hj. apply H. lia. Qed.

Lemma store_other (m : Mem) (a b : Z) (v : double) :
  b <> a -> store m a v b = m b.
Proof. intros H. unfold store. destruct (Z.eqb_spec b a); congruence. Qed.

Lemma store_same (m : Mem) (a : Z) (v : double) : store m a v a = v.
Proof. unfold store. rewrite Z.eqb_refl. reflexivity. Qed.

(** *** The silence loop *)

(** The loop changes nothing but the memory; it leaves zeros where there
    were zeros and writes nothing outside its frames. *)
Lemma silence_loop (k : nat) : forall (i : Z) (w : W),
  exists w',
    for_frames k i (silence_frame left right stride) tt w = (Ok tt, w') /\
    player w' = player w /\ trace w' = trace w /\
    (forall a, heap w a = 0%float -> heap w' a = 0%float) /\
    (forall a, off_frames left right stride i k a -> heap w' a = heap w a).
Proof.
  induction k as [|k IH]; intros i w.
  - exists w. simpl. auto.
  - cbn [for_frames]. unfold bind at 1.
    unfold silence_frame at 1, bind, write. cbn [fst snd].
    match goal with |- context [for_frames k (i + 1) _ tt ?w1] =>
      destruct (IH (i + 1) w1) as (w' & Hrun & Hp & Ht & Hz & Hf) end.
    exists w'. rewrite Hrun. cbn in Hp, Ht, Hz, Hf.
    split; [reflexivity|]. split; [exact Hp|]. split; [exact Ht|]. split.
    + intros a Ha. apply Hz. unfold store.
      destruct (a =? right + frame_offset i stride); [reflexivity|].
      destruct (a =? left + frame_offset i stride); [reflexivity|exact Ha].
    + intros a Ha. rewrite Hf by (apply off_frames_tail; exact Ha).
      destruct (Ha i) as [Hl Hr]; [lia|].
      rewrite !store_other by assumption. reflexivity.
Qed.

(** Every frame of the loop's range holds zero afterwards. *)
Lemma silence_loop_zero (k : nat) : forall (i : Z) (w w' : W) (j : Z),
  for_frames k i (silence_frame left right stride) tt w = (Ok tt, w') ->
  i <= j < i + Z.of_nat k ->
  heap w' (left + frame_offset j stride) = 0%float /\
  heap w' (right + frame_offset j stride) = 0%float.
Proof.
  induction k as [|k IH]; intros i w w' j Hrun Hj; [lia|].
  cbn [for_frames] in Hrun. unfold bind at 1 in Hrun.
  unfold silence_frame at 1, bind, write in Hrun. cbn [fst snd] in Hrun.
  destruct (Z.eq_dec j i) as [-> | Hne].
  - match type of Hrun with for_frames k (i + 1) _ tt ?w1 = _ =>
      destruct (silence_loop k (i + 1) w1) as (w2 & Hrun2 & _ & _ & Hz & _) end.
    rewrite Hrun2 in Hrun. injection Hrun as <-.
    split; apply Hz; cbn; unfold store.
    + destruct (_ =? right + _); [reflexivity|].
      rewrite Z.eqb_refl. reflexivity.
    + rewrite Z.eqb_refl. reflexivity.
  - apply (IH (i + 1) _ _ j Hrun). lia.
Qed.

(** Running the call when another thread holds the mutex. *)
Lemma generate_outputs_contended_run (w : W) (nframes : Z) :
  0 < nframes -> player_mutex w = true ->
  generic_generate_outputs left right nframes stride w
  = for_frames (Z.to_nat nframes) 0 (silence_frame left right stride) tt
      (set_trace (trace w ++ [EvTryLock false]) w).
Proof.
  intros Hn Hheld. unfold generic_generate_outputs.
  destruct (Z.leb_spec nframes 0); [lia|].
  unfold bind at 1. unfold try_lock. rewrite Hheld. reflexivity.
Qed.

(** *** The post-processing loop *)

Lemma process_frame_step (i : Z) (lv : double * double) (w : W) :
  exists lv' w',
    process_frame left right stride i lv w = (Ok lv', w') /\
    same_registry w w' /\
    trace w' = trace w ++ [EvDcFilter 0; EvDcFilter 1;
                           EvVuMonitor 0; EvVuMonitor 1] /\
    (forall a, off_frames left right stride i 1 a -> heap w' a = heap w a).
Proof.
  unfold process_frame, bind, load, dcfilter_process, lvmonitor_process, write.
  destruct (dcfilter w) as [f0 f1] eqn:Hdc.
  destruct (lvmonitor w) as [m0 m1] eqn:Hvu.
  cbn. rewrite Hvu. cbn.
  eexists _, _. split; [reflexivity|]. cbn.
  split; [unfold same_registry; cbn; tauto|].
  split; [rewrite <- !app_assoc; reflexivity|].
  intros a Ha. destruct (Ha i) as [Hl Hr]; [lia|].
  rewrite !store_other by assumption. reflexivity.
Qed.

Lemma process_loop (k : nat) : forall (i : Z) (lv : double * double) (w : W),
  exists lv' w' post,
    for_frames k i (process_frame left right stride) lv w = (Ok lv', w') /\
    same_registry w w' /\
    trace w' = trace w ++ post /\
    forallb is_post_processing post = true /\
    (k <> O -> exists post', post = EvDcFilter 0 :: post') /\
    (forall a, off_frames left right stride i k a -> heap w' a = heap w a).
Proof.
  induction k as [|k IH]; intros i lv w.
  - exists lv, w, []. cbn. rewrite app_nil_r.
    unfold same_registry. intuition congruence.
  - cbn [for_frames]. unfold bind at 1.
    destruct (process_frame_step i lv w) as (lv1 & w1 & Hstep & Hreg1 & Ht1 & Hf1).
    rewrite Hstep.
    destruct (IH (i + 1) lv1 w1) as (lv' & w' & post & Hrun & Hreg & Ht & Hpost & _ & Hf).
    exists lv', w', ([EvDcFilter 0; EvDcFilter 1; EvVuMonitor 0; EvVuMonitor 1] ++ post).
    split; [exact Hrun|].
    split; [unfold same_registry in *; intuition congruence|].
    split; [rewrite Ht, Ht1, <- app_assoc; reflexivity|].
    split; [cbn; exact Hpost|].
    split; [intros _; eexists; reflexivity|].
    intros a Ha. rewrite Hf by (apply off_frames_tail; exact Ha).
    apply Hf1. intros j Hj. apply Ha. lia.
Qed.

(** *** The call when the lock is taken *)

Lemma generate_outputs_uncontended_run (w : W) (nframes : Z) :
  0 < nframes -> player_mutex w = false ->
  exists w' post,
    generic_generate_outputs left right nframes stride w = (Ok tt, w') /\
    trace w' = trace w ++ render_events left right stride w nframes
                 ++ (EvDcFilter 0 :: post)
                 ++ [EvStore TLevel; EvStore TCpuRatio] /\
    forallb is_post_processing post = true /\
    player w' =
      fst (generate_format (player w) (u32 (2 * nframes)) left right
             (render_format stride) (heap w)) /\
    player_mutex w' = false /\
    cpuratio w' = load_ratio w nframes /\
    (forall a, off_frames left right stride 0 (Z.to_nat nframes) a ->
       heap w' a =
       snd (generate_format (player w) (u32 (2 * nframes)) left right
              (render_format stride) (heap w)) a).
Proof.
  intros Hn Hfree. unfold generic_generate_outputs.
  destruct (Z.leb_spec nframes 0); [lia|].
  unfold bind at 1. unfold try_lock at 1. rewrite Hfree. cbn [negb].
  unfold bind at 1. unfold now at 1. cbv zeta.
  unfold bind at 1. unfold Traits_generate_format at 1. cbv zeta.
  unfold bind at 1. unfold now at 1. cbv zeta.
  unfold bind at 1. unfold unlock at 1.
  unfold bind at 1.
  match goal with |- context [for_frames ?k 0 _ ?lv ?w1] =>
    destruct (process_loop k 0 lv w1)
      as (lv' & w2 & post & Hrun & Hreg & Ht & Hpost & Hhead & Hf)
  end.
  rewrite Hrun.
  destruct Hhead as [post' ->]; [lia|].
  destruct Hreg as (Hp & _ & _ & Hsr & _ & Hmx & Hck & Hrd & _).
  cbn in Hp, Hsr, Hmx, Hck, Hrd, Ht, Hf.
  unfold bind, emit, assign. cbn.
  eexists _, post'. split; [reflexivity|]. cbn.
  split.
  { rewrite Ht. unfold render_events, render_format.
    rewrite <- !app_assoc. reflexivity. }
  split; [exact Hpost|].
  split; [exact Hp|].
  split; [exact Hmx|].
  split; [unfold load_ratio; rewrite Hsr; reflexivity|].
  exact Hf.
Qed.



Lemma frame_offset_exact (i : Z) :
  0 <= i * stride < 2 ^ 32 -> frame_offset i stride = i * stride.
Proof. intros H. unfold frame_offset, u32. apply Z.mod_small. exact H. Qed.

End Generate_outputs.

Section Generate_outputs_claims.
Context {Player DcFilter VuMonitor : Type}.
Context {Traits : Player_Traits Player}.
Context {Conditioner : Signal_Conditioner DcFilter VuMonitor}.
Local Abbreviation W := (World Player DcFilter VuMonitor).

(** With the mutex held, every frame the loop addresses holds zero. *)
Lemma contended_silence_frames (w : W) (left right nframes stride i : Z) :
  0 < nframes -> player_mutex w = true -> 0 <= i < nframes ->
  let w' := exec (generic_generate_outputs left right nframes stride) w in
  heap w' (left + frame_offset i stride) = 0%float /\
  heap w' (right + frame_offset i stride) = 0%float.
Proof.
  intros Hn Hheld Hi. cbv zeta. unfold exec.
  rewrite (generate_outputs_contended_run left right stride w nframes Hn Hheld).
  match goal with |- context [for_frames ?k 0 ?b tt ?w1] =>
    destruct (silence_loop left right stride k 0 w1)
      as (w' & Hrun & _);
    pose proof (silence_loop_zero left right stride k 0 w1 w') as Hzero
  end.
  rewrite Hrun in *. cbn [snd]. apply Hzero; [reflexivity|lia].
Qed.

(** The frames are at [left + i * stride] and [right + i * stride] as long
    as the offsets do not wrap on 32 bits. *)
Lemma contended_silence_positions (w : W) (left right nframes stride i : Z) :
  0 < nframes -> player_mutex w = true ->
  0 <= stride -> (nframes - 1) * stride < 2 ^ 32 ->
  0 <= i < nframes ->
  let w' := exec (generic_generate_outputs left right nframes stride) w in
  heap w' (left + i * stride) = 0%float /\
  heap w' (right + i * stride) = 0%float.
Proof.
  intros Hn Hheld Hs Hwrap Hi.
  rewrite <- (frame_offset_exact stride i) by nia.
  apply contended_silence_frames; assumption.
Qed.

(** With the mutex held the call returns after the failed try-lock and
    the silence loop: no call of the backend. *)
Lemma contended_silence_events (w : W) (left right nframes stride : Z) :
  0 < nframes -> player_mutex w = true ->
  let w' := exec (generic_generate_outputs left right nframes stride) w in
  outcome (generic_generate_outputs left right nframes stride) w = Ok tt /\
  trace w' = trace w ++ [EvTryLock false] /\
  backend_calls (trace w') = backend_calls (trace w) /\
  player w' = player w.
Proof.
  intros Hn Hheld. cbv zeta. unfold outcome, exec.
  rewrite (generate_outputs_contended_run left right stride w nframes Hn Hheld).
  match goal with |- context [for_frames ?k 0 ?b tt ?w1] =>
    destruct (silence_loop left right stride k 0 w1)
      as (w' & Hrun & Hp & Ht & _)
  end.
  rewrite Hrun. cbn [fst snd]. cbn in Hp, Ht.
  split; [reflexivity|]. split; [exact Ht|]. split; [|exact Hp].
  rewrite Ht, backend_calls_app. cbn. apply app_nil_r.
Qed.

(** C1 (amended): when the mutex is held by another thread, a call with
    [nframes > 0] and a stride whose frame offsets do not wrap on 32 bits
    ([(nframes - 1) * stride < 2^32]) returns normally after writing zero
    at the positions [i * stride] of the left and of the right buffer, for
    every frame [i] below [nframes]; the backend is not called (the only
    event is the failed try-lock) and its player is untouched. *)
Theorem generate_outputs_contended_silence (w : W)
  (left right nframes stride : Z) :
  0 < nframes -> 0 <= stride -> (nframes - 1) * stride < 2 ^ 32 ->
  player_mutex w = true ->
  let w' := exec (generic_generate_outputs left right nframes stride) w in
  outcome (generic_generate_outputs left right nframes stride) w = Ok tt /\
  (forall i, 0 <= i < nframes ->
     heap w' (left + i * stride) = 0%float /\
     heap w' (right + i * stride) = 0%float) /\
  trace w' = trace w ++ [EvTryLock false] /\
  backend_calls (trace w') = backend_calls (trace w) /\
  player w' = player w.
Proof.
  intros Hn Hs Hwrap Hheld. cbv zeta.
  destruct (contended_silence_events w left right nframes stride Hn Hheld)
    as (Hok & Ht & Hcalls & Hp).
  split; [exact Hok|].
  split; [|split; [exact Ht | split; [exact Hcalls | exact Hp]]].
  intros i Hi. apply contended_silence_positions; assumption.
Qed.


(** C9: with the lock taken and [nframes > 0], the stored load ratio is
    the measured generation time in seconds (the microseconds between the
    two clock readings times [1e-6]) divided by [nframes / sample rate],
    with no clamping. For 256 frames at 44100 Hz and 2.9 ms of generation
    it is [0.49957...], between [0x1.ff8p-2 = 0.49951...] and [0.5]; for
    11.61 ms it is about [2], stored above [1]. *)
Theorem generate_outputs_cpuratio (w : W) (left right nframes stride : Z) :
  0 < nframes -> player_mutex w = false ->
  let w' := exec (generic_generate_outputs left right nframes stride) w in
  let d_gen :=
    steady_clock w (S (clock_reads w)) - steady_clock w (clock_reads w) in
  let d_sec := PrimFloat.mul micro (double_of_Z (microseconds d_gen)) in
  cpuratio w' =
    PrimFloat.div d_sec
      (PrimFloat.div (double_of_Z nframes)
                     (double_of_Z (player_sample_rate w))) /\
  (nframes = 256 -> player_sample_rate w = 44100 ->
   (d_gen = 2900000 ->
      cpuratio w' = 0x1.ff8f5c28f5c28p-2%float /\
      PrimFloat.ltb 0x1.ff8p-2%float (cpuratio w') = true /\
      PrimFloat.ltb (cpuratio w') 0.5%float = true) /\
   (d_gen = 11610000 ->
      PrimFloat.ltb 1%float (cpuratio w') = true)).
Proof.
  intros Hn Hfree. cbv zeta.
  destruct (generate_outputs_uncontended_run left right stride w nframes
              Hn Hfree) as (w' & post & Hrun & _ & _ & _ & _ & Hcpu & _).
  unfold exec. rewrite Hrun. cbn [snd]. rewrite Hcpu. unfold load_ratio.
  split; [reflexivity|].
  intros -> ->. split; intros ->; vm_compute; auto.
Qed.

(** C10 (amended): for a stride [s >= 1] and a frame count [n] whose
    frame offsets do not wrap on 32 bits ([(n - 1) * s < 2^32]), the call
    leaves every address that is not [left + i * s] or [right + i * s] for
    some [i] in [[0, n)] as it was. On the path that renders this holds
    when the byte offset [4 * s] does not wrap either and the backend
    writes only the frames it is asked for. *)
Theorem generate_outputs_frame (w : W) (left right n s : Z) (a : Z) :
  1 <= s ->
  (n - 1) * s < 2 ^ 32 ->
  (player_mutex w = false -> 4 * s < 2 ^ 32 /\ strided_renderer) ->
  (forall i, 0 <= i < n -> a <> left + i * s /\ a <> right + i * s) ->
  heap (exec (generic_generate_outputs left right n s) w) a = heap w a.
Proof.
  intros Hs Hwrap Hrender Hoff.
  destruct (Z.leb_spec n 0) as [Hle|Hn].
  { unfold exec, generic_generate_outputs.
    destruct (Z.leb_spec n 0); [reflexivity|lia]. }
  assert (Hframes : off_frames left right s 0 (Z.to_nat n) a).
  { intros j Hj. rewrite frame_offset_exact by nia. apply Hoff. lia. }
  destruct (player_mutex w) eqn:Hmx.
  - unfold exec.
    rewrite (generate_outputs_contended_run left right s w n Hn Hmx).
    match goal with |- context [for_frames ?k 0 ?b tt ?w1] =>
      destruct (silence_loop left right s k 0 w1)
        as (w' & Hrun & _ & _ & _ & Hf)
    end.
    rewrite Hrun. cbn [snd]. rewrite (Hf a Hframes). reflexivity.
  - destruct (Hrender eq_refl) as (Hs4 & Hback).
    destruct (generate_outputs_uncontended_run left right s w n Hn Hmx)
      as (w' & post & Hrun & _ & _ & _ & _ & _ & Hf).
    unfold exec. rewrite Hrun. cbn [snd]. rewrite (Hf a Hframes).
    apply Hback. intros (i & Hi & Ha).
    unfold render_format in Ha. cbn [sampleOffset containerSize] in Ha.
    unfold u32, sizeof_float in Hi, Ha.
    rewrite (Z.mod_small (s * 4)) in Ha by lia.
    rewrite Z.div_mul in Ha by lia.
    assert (Hslots : (2 * n) mod 2 ^ 32 / 2 <= n).
    { apply Z.div_le_upper_bound; [lia|].
      apply Z.mod_le; lia. }
    destruct (Hoff i) as [Hl Hr]; [lia|]. destruct Ha; contradiction.
Qed.

End Generate_outputs_claims.

(* ===================================================================== *)
(** ** The dynamic reconfiguration operations *)
(* ===================================================================== *)

Section Reconfiguration.
Context {Player DcFilter VuMonitor : Type}.
Context {Traits : Player_Traits Player}.
Context {Conditioner : Signal_Conditioner DcFilter VuMonitor}.
Local Abbreviation W := (World Player DcFilter VuMonitor).

(** The three operations, run on any state. *)
Lemma set_chip_count_run (w : W) (nchip : Z) :
  let r := set_num_chips (panic (player w)) nchip in
  generic_player_dynamic_set_chip_count nchip w
  = (Ok tt,
     set_trace (trace w ++ [EvLock; EvBackend CPanic;
                            EvBackend (CSetNumChips nchip); EvUnlock])
       (set_player_mutex false (set_player (fst r) w))).
Proof.
  cbv zeta. unfold generic_player_dynamic_set_chip_count, bind, lock_guard,
    Traits_panic, Traits_set_num_chips, call, call_status, unlock.
  cbn. rewrite <- !app_assoc. reflexivity.
Qed.

Lemma set_emulator_run (w : W) (emulator : Z) :
  let r := switch_emulator (panic (player w)) emulator in
  generic_player_dynamic_set_emulator emulator w
  = (Ok tt,
     set_trace (trace w ++ [EvLock; EvBackend CPanic;
                            EvBackend (CSwitchEmulator emulator); EvUnlock])
       (set_player_mutex false
          (set_player_emulator_id
             (if snd r <? 0 then player_emulator_id w else emulator)
             (set_player (fst r) w)))).
Proof.
  cbv zeta. unfold generic_player_dynamic_set_emulator, bind, lock_guard,
    Traits_panic, Traits_switch_emulator, call, call_status, unlock, assign.
  cbn. destruct (_ <? 0); cbn; rewrite <- !app_assoc; reflexivity.
Qed.

Lemma load_bank_run (w : W) (bankfile : string) :
  let r := open_bank_file (panic (player w)) bankfile in
  generic_player_dynamic_load_bank bankfile w
  = (Ok (negb (snd r <? 0)),
     set_trace (trace w ++ [EvLock; EvBackend CPanic;
                            EvBackend (COpenBankFile bankfile); EvUnlock])
       (set_player_mutex false
          (set_player_bank_file
             (if snd r <? 0 then player_bank_file w else Some bankfile)
             (set_player (fst r) w)))).
Proof.
  cbv zeta. unfold generic_player_dynamic_load_bank, bind, lock_guard,
    Traits_panic, Traits_open_bank_file, call, call_status, unlock, assign, ret.
  cbn. destruct (_ <? 0); cbn; rewrite <- !app_assoc; reflexivity.
Qed.

(** C4: [generic_player_dynamic_set_emulator] stores the new emulator id
    exactly when the backend's [switch_emulator] does not report a failure
    (a negative status), and [generic_player_dynamic_load_bank] stores the
    new bank path, and returns [true], exactly when [open_bank_file] does
    not; on a failure the stored emulator id and bank path are the
    previous ones. *)
Theorem reconfiguration_commits_on_success (w : W) :
  (forall emulator : Z,
     let status := snd (switch_emulator (panic (player w)) emulator) in
     let w' := exec (generic_player_dynamic_set_emulator emulator) w in
     (status < 0 ->
        player_emulator_id w' = player_emulator_id w /\
        player_bank_file w' = player_bank_file w) /\
     (0 <= status ->
        player_emulator_id w' = emulator /\
        player_bank_file w' = player_bank_file w)) /\
  (forall bankfile : string,
     let status := snd (open_bank_file (panic (player w)) bankfile) in
     let w' := exec (generic_player_dynamic_load_bank bankfile) w in
     (status < 0 ->
        outcome (generic_player_dynamic_load_bank bankfile) w = Ok false /\
        player_bank_file w' = player_bank_file w /\
        player_emulator_id w' = player_emulator_id w) /\
     (0 <= status ->
        outcome (generic_player_dynamic_load_bank bankfile) w = Ok true /\
        player_bank_file w' = Some bankfile /\
        player_emulator_id w' = player_emulator_id w)).
Proof.
  split.
  - intros emulator. cbv zeta. unfold exec. rewrite set_emulator_run. cbn.
    split; intros H.
    + destruct (Z.ltb_spec (snd (switch_emulator (panic (player w)) emulator)) 0);
        [auto|lia].
    + destruct (Z.ltb_spec (snd (switch_emulator (panic (player w)) emulator)) 0);
        [lia|auto].
  - intros bankfile. cbv zeta. unfold exec, outcome. rewrite load_bank_run. cbn.
    split; intros H.
    + destruct (Z.ltb_spec (snd (open_bank_file (panic (player w)) bankfile)) 0);
        [auto|lia].
    + destruct (Z.ltb_spec (snd (open_bank_file (panic (player w)) bankfile)) 0);
        [lia|auto].
Qed.

(** C5 (amended): [generic_player_dynamic_set_chip_count] and
    [generic_player_dynamic_set_emulator] return nothing: for every chip
    count and every emulator id, accepted by the backend or not, the call
    completes normally with no result. For an emulator id the backend
    rejects, the stored emulator id stays the previous one. *)
Theorem reconfiguration_returns_nothing (w : W) :
  (forall nchip : Z,
     outcome (generic_player_dynamic_set_chip_count nchip) w = Ok tt) /\
  (forall emulator : Z,
     outcome (generic_player_dynamic_set_emulator emulator) w = Ok tt /\
     (snd (switch_emulator (panic (player w)) emulator) < 0 ->
      player_emulator_id (exec (generic_player_dynamic_set_emulator emulator) w)
        = player_emulator_id w)).
Proof.
  split.
  - intros nchip. unfold outcome. rewrite set_chip_count_run. reflexivity.
  - intros emulator. unfold outcome, exec. rewrite set_emulator_run. cbn.
    split; [reflexivity|]. intros H.
    destruct (Z.ltb_spec (snd (switch_emulator (panic (player w)) emulator)) 0);
      [reflexivity|lia].
Qed.


End Reconfiguration.

(* ===================================================================== *)
(** ** The layer on the small backend *)
(* ===================================================================== *)

Lemma sim_render_frame (k : nat) : forall (i left right step : Z) (m : Mem) (a : Z),
  (forall j, i <= j < i + Z.of_nat k ->
     a <> left + j * step /\ a <> right + j * step) ->
  Sim.sim_render k i left right step m a = m a.
Proof.
  induction k as [|k IH]; intros i left right step m a Hoff; [reflexivity|].
  cbn [Sim.sim_render]. rewrite IH by (intros j Hj; apply Hoff; lia).
  destruct (Hoff i) as [Hl Hr]; [lia|].
  unfold store.
  destruct (Z.eqb_spec a (right + i * step)); [contradiction|].
  destruct (Z.eqb_spec a (left + i * step)); [contradiction|reflexivity].
Qed.

(** The small backend honours the contract of the render operation. *)
Lemma sim_strided_renderer : strided_renderer (Traits := Sim.sim_traits).
Proof.
  intros p n left right format m a Hout. cbn.
  apply sim_render_frame. intros j Hj.
  assert (Hin : 0 <= j < n / 2) by lia.
  split; intros ->; apply Hout; exists j; split; auto.
Qed.

Lemma float_zero_is_not_one : 0%float <> 1%float.
Proof.
  intros H.
  apply (f_equal (fun x => PrimFloat.ltb x 0x1p-1%float)) in H.
  vm_compute in H. discriminate H.
Qed.

(** Start-up fails when the backend refuses the chip count. *)
Example initialize_player_zero_chips :
  outcome (generic_initialize_player 0x1.4p+2%float 0x1.47ae147ae147bp-6%float
             44100 0 None 0) Sim.blank
  = Throw "error setting the number of chips".
Proof. reflexivity. Qed.

(** [90 40 7f] after start-up: one note-on, [channel_map] unchanged. *)
Example play_midi_note_on :
  backend_calls (trace (exec (generic_play_midi [x90; x40; x7f] 3) Sim.started))
  = backend_calls (trace Sim.started) ++ [CNoteOn 0 64 127] /\
  channel_map (exec (generic_play_midi [x90; x40; x7f] 3) Sim.started)
  = channel_map Sim.started.
Proof. vm_compute. split; reflexivity. Qed.

(** [e1 12 34]: the second data byte is passed first. *)
Example play_midi_pitch_bend :
  backend_calls (trace (exec (generic_play_midi [xe1; x12; x34] 3) Sim.started))
  = backend_calls (trace Sim.started) ++ [CPitchBend 1 52 18].
Proof. vm_compute. reflexivity. Qed.

(** A message that arrives while the mutex is held is dropped. *)
Example play_midi_contended :
  trace (exec (generic_play_midi [x90; x40; x7f] 3) Sim.contended)
  = trace Sim.contended ++ [EvTryLock false] /\
  player (exec (generic_play_midi [x90; x40; x7f] 3) Sim.contended)
  = player Sim.contended.
Proof. vm_compute. split; reflexivity. Qed.

(** Two interleaved frames after start-up: the events in order, and the
    filtered samples, stored as [float]. *)
Example generate_outputs_two_frames :
  let w' := exec (generic_generate_outputs 0 1 2 2) Sim.started in
  trace w' =
    trace Sim.started ++
    [EvTryLock true; EvNow 0;
     EvBackend (CGenerateFormat 4 0 1
                  (mkAudioFormat ADLMIDI_SampleType_F32 4 8));
     EvNow 2900000; EvUnlock;
     EvDcFilter 0; EvDcFilter 1; EvVuMonitor 0; EvVuMonitor 1;
     EvDcFilter 0; EvDcFilter 1; EvVuMonitor 0; EvVuMonitor 1;
     EvStore TLevel; EvStore TCpuRatio] /\
  heap w' 0 = 0x1p-2%float /\
  heap w' 2 = float_of_double 0x1.fff123a4836cdp-3%float /\
  heap w' 4 = 1%float /\
  player_mutex w' = false.
Proof. vm_compute. repeat split; reflexivity. Qed.

(** Counterexample of C1: with three frames of stride [2^31 + 1] and the
    mutex held, the offset of frame 2 wraps to 2: position 2 of the left
    buffer is zeroed, and the samples of frame 2, at position
    [2 * (2^31 + 1)] of each buffer, keep the value they had. *)
Lemma contended_silence_misses_wrapped_frame :
  player_mutex Sim.contended = true /\
  heap Sim.contended (0 + 2 * (2 ^ 31 + 1)) = 1%float /\
  heap (exec (generic_generate_outputs 0 (2 ^ 40) 3 (2 ^ 31 + 1))
          Sim.contended) (0 + 2 * (2 ^ 31 + 1)) = 1%float /\
  heap (exec (generic_generate_outputs 0 (2 ^ 40) 3 (2 ^ 31 + 1))
          Sim.contended) (2 ^ 40 + 2 * (2 ^ 31 + 1)) = 1%float /\
  heap (exec (generic_generate_outputs 0 (2 ^ 40) 3 (2 ^ 31 + 1))
          Sim.contended) (0 + 2) = 0%float /\
  heap (exec (generic_generate_outputs 0 (2 ^ 40) 3 (2 ^ 31 + 1))
          Sim.contended) (0 + 2 * (2 ^ 31 + 1)) <> 0%float.
Proof.
  assert (Hkept :
    heap (exec (generic_generate_outputs 0 (2 ^ 40) 3 (2 ^ 31 + 1))
            Sim.contended) (0 + 2 * (2 ^ 31 + 1)) = 1%float)
    by (vm_compute; reflexivity).
  split; [reflexivity|]. split; [vm_compute; reflexivity|].
  split; [exact Hkept|]. split; [vm_compute; reflexivity|].
  split; [vm_compute; reflexivity|].
  rewrite Hkept. intros H. symmetry in H. exact (float_zero_is_not_one H).
Qed.

(** Witness of C1 (amended): four frames of stride two while the mutex is
    held; frame 3 is at position 6. *)
Lemma generate_outputs_contended_silence_witness :
  heap (exec (generic_generate_outputs 0 1 4 2) Sim.contended) (0 + 3 * 2)
    = 0%float /\
  heap (exec (generic_generate_outputs 0 1 4 2) Sim.contended) (1 + 3 * 2)
    = 0%float /\
  trace (exec (generic_generate_outputs 0 1 4 2) Sim.contended)
    = trace Sim.contended ++ [EvTryLock false].
Proof.
  destruct (generate_outputs_contended_silence Sim.contended 0 1 4 2)
    as (_ & Hzero & Htrace & _); [lia | lia | lia | reflexivity |].
  destruct (Hzero 3 ltac:(lia)) as [Hl Hr].
  split; [exact Hl|]. split; [exact Hr | exact Htrace].
Defined.

(** Witness of C2: [90 40 00] against [80 40 7f] after start-up. *)
Lemma note_on_velocity_zero_is_note_off_witness :
  generic_play_midi [status_byte 9 0; x40; x00] 3 Sim.started
  = generic_play_midi [status_byte 8 0; x40; x7f] 3 Sim.started /\
  trace (exec (generic_play_midi [status_byte 9 0; x40; x00] 3) Sim.started)
  = trace Sim.started
      ++ [EvTryLock true; EvBackend (CNoteOff 0 (u8 x40)); EvUnlock].
Proof.
  destruct (note_on_velocity_zero_is_note_off Sim.started 0 x40 x7f [] [] 3 3)
    as [Hsame Hfree]; [lia | lia | lia |].
  split; [exact Hsame|]. apply Hfree. reflexivity.
Defined.

(** Witness of C3: program byte [0xff] on channel 3. *)
Lemma program_change_recorded_witness :
  channel_map (exec (generic_play_midi [status_byte 12 3; xff] 2) Sim.started)
    !! Z.to_nat 3 = Some (mkProgram (Z.land (u8 xff) 127)).
Proof.
  apply (program_change_recorded Sim.started 3 xff [] 2);
    [lia | lia | reflexivity | reflexivity].
Defined.

(** Witness of C4: emulator 7 and the bank ["nonexistent.wopl"] are
    rejected by the small backend. *)
Lemma reconfiguration_commits_on_success_witness :
  player_emulator_id
    (exec (generic_player_dynamic_set_emulator 7) Sim.started)
  = player_emulator_id Sim.started /\
  outcome (generic_player_dynamic_load_bank "nonexistent.wopl") Sim.started
  = Ok false.
Proof.
  destruct (reconfiguration_commits_on_success Sim.started) as [Hemu Hbank].
  split.
  - apply (proj1 (Hemu 7)). reflexivity.
  - apply (proj1 (Hbank "nonexistent.wopl"%string)). reflexivity.
Defined.

(** Counterexample of C5: the small backend rejects zero chips and
    emulator 7 (negative status), yet both calls complete exactly as the
    accepted ones do, with no result. *)
Lemma reconfiguration_failure_not_reported :
  snd (set_num_chips (panic (player Sim.started)) 0) < 0 /\
  0 <= snd (set_num_chips (panic (player Sim.started)) 2) /\
  outcome (generic_player_dynamic_set_chip_count 0) Sim.started
  = outcome (generic_player_dynamic_set_chip_count 2) Sim.started /\
  snd (switch_emulator (panic (player Sim.started)) 7) < 0 /\
  0 <= snd (switch_emulator (panic (player Sim.started)) 1) /\
  outcome (generic_player_dynamic_set_emulator 7) Sim.started
  = outcome (generic_player_dynamic_set_emulator 1) Sim.started.
Proof. vm_compute. repeat split; congruence. Qed.

(** Witness of C5 (amended): emulator 7 is rejected. *)
Lemma reconfiguration_returns_nothing_witness :
  player_emulator_id
    (exec (generic_player_dynamic_set_emulator 7) Sim.started)
  = player_emulator_id Sim.started.
Proof.
  apply (proj2 (proj2 (reconfiguration_returns_nothing Sim.started) 7)).
  reflexivity.
Defined.

(** Witness of C6: a Note-On of two bytes. *)
Lemma play_midi_malformed_dropped_witness :
  outcome (generic_play_midi [x90; x40] 2) Sim.started = Ok tt /\
  player (exec (generic_play_midi [x90; x40] 2) Sim.started)
    = player Sim.started /\
  backend_calls (trace (exec (generic_play_midi [x90; x40] 2) Sim.started))
    = backend_calls (trace Sim.started) /\
  channel_map (exec (generic_play_midi [x90; x40] 2) Sim.started)
    = channel_map Sim.started.
Proof.
  apply (play_midi_malformed_dropped Sim.started [x90; x40] 2).
  right. right. exists 3. split; [reflexivity | lia].
Defined.



(** Witness of C9: 256 frames at 44100 Hz rendered in 2.9 ms. *)
Lemma generate_outputs_cpuratio_witness :
  cpuratio (exec (generic_generate_outputs 0 1 256 2) Sim.started)
  = 0x1.ff8f5c28f5c28p-2%float.
Proof.
  destruct (generate_outputs_cpuratio Sim.started 0 1 256 2)
    as (_ & Hscenario); [lia | reflexivity |].
  destruct (Hscenario eq_refl eq_refl) as [Hms _].
  apply Hms. reflexivity.
Defined.

(** Counterexample of C10: with stride [2^31 + 1] the offset of frame 2
    wraps to 2, so the call writes position 2 of the left buffer, which is
    none of the positions [i * s], [i < 3], of either buffer. *)
Lemma generate_outputs_writes_wrapped_frame :
  (forall i, 0 <= i < 3 ->
     2 <> 0 + i * (2 ^ 31 + 1) /\ 2 <> 2 ^ 40 + i * (2 ^ 31 + 1)) /\
  heap Sim.contended 2 = 1%float /\
  heap (exec (generic_generate_outputs 0 (2 ^ 40) 3 (2 ^ 31 + 1)) Sim.contended) 2
  = 0%float /\
  heap (exec (generic_generate_outputs 0 (2 ^ 40) 3 (2 ^ 31 + 1)) Sim.contended) 2
  <> heap Sim.contended 2.
Proof.
  assert (Hafter :
    heap (exec (generic_generate_outputs 0 (2 ^ 40) 3 (2 ^ 31 + 1))
            Sim.contended) 2
    = 0%float) by (vm_compute; reflexivity).
  assert (Hbefore : heap Sim.contended 2 = 1%float) by (vm_compute; reflexivity).
  split; [intros i Hi; lia|].
  split; [exact Hbefore|]. split; [exact Hafter|].
  rewrite Hafter, Hbefore. exact float_zero_is_not_one.
Qed.

(** On the rendering path the byte offset [4 * s] wraps as well: with
    stride [2^30 + 1] the small backend is asked for frames 4 bytes
    apart and writes position 1 of the left buffer, which is neither
    [0] nor [2^30 + 1]. *)
Example generate_outputs_render_offset_wraps :
  sampleOffset (render_format (2 ^ 30 + 1)) = 4 /\
  heap Sim.started 1 = 1%float /\
  snd (generate_format (player Sim.started) (u32 (2 * 2)) 0 (2 ^ 40)
         (render_format (2 ^ 30 + 1)) (heap Sim.started)) 1
  = 0x1p-2%float.
Proof. vm_compute. repeat split; reflexivity. Qed.

(** Witness of C10 (amended): two frames of stride two on the rendering
    path leave address 1 alone. *)
Lemma generate_outputs_frame_witness :
  heap (exec (generic_generate_outputs 0 100 2 2) Sim.started) 1
  = heap Sim.started 1.
Proof.
  apply (generate_outputs_frame Sim.started 0 100 2 2 1).
  - lia.
  - reflexivity.
  - intros _. split; [reflexivity|]. exact sim_strided_renderer.
  - intros i Hi. lia.
Defined.

(* ===================================================================== *)
(** ** More on [generic_play_midi] *)
(* ===================================================================== *)

Section Play_midi_more.
Context {Player DcFilter VuMonitor : Type}.
Context {Traits : Player_Traits Player}.
Context {Conditioner : Signal_Conditioner DcFilter VuMonitor}.
Local Abbreviation W := (World Player DcFilter VuMonitor).
Local Abbreviation M := (M Player DcFilter VuMonitor).

Lemma dispatch_cases (msg : list byte) (len status channel : Z) :
  Dispatched msg channel
    (dispatch (DcFilter := DcFilter) (VuMonitor := VuMonitor)
       msg len status channel).
Proof.
  unfold dispatch, case_note_off.
  destruct (Z.shiftr status 4) as [|p|p]; try constructor.
  do 4 (try destruct p as [p|p|]); try constructor;
    repeat match goal with
           | |- context [if ?b then _ else _] => destruct b
           end;
    constructor.
Qed.

(** The program-change arm is taken for high nibble [0xC] only. *)
Lemma dispatch_not_program (msg : list byte) (len status channel : Z) :
  Z.shiftr status 4 <> 12 ->
  dispatch (DcFilter := DcFilter) (VuMonitor := VuMonitor)
    msg len status channel = ret tt \/
  exists c f, dispatch (DcFilter := DcFilter) (VuMonitor := VuMonitor)
                msg len status channel = call c f.
Proof.
  unfold dispatch, case_note_off.
  destruct (Z.shiftr status 4) as [|p|p]; auto.
  do 4 (try destruct p as [p|p|]); auto; intros Hk; try (exfalso; apply Hk; reflexivity);
    repeat match goal with
           | |- context [if ?b then _ else _] => destruct b
           end;
    auto; right; eexists _, _; reflexivity.
Qed.

Lemma play_midi_locked_cases (msg : list byte) (len : Z) :
  Dispatched msg (Z.land (msg_at msg 0) 15)
    (play_midi_locked (DcFilter := DcFilter) (VuMonitor := VuMonitor)
       msg len).
Proof.
  unfold play_midi_locked.
  destruct (len <=? 0); [constructor|].
  destruct (Z.land (msg_at msg 0) 240 =? 240); [constructor|].
  apply dispatch_cases.
Qed.

(** X1: whatever the message and the state, [generic_play_midi] returns
    normally, leaves the mutex as it found it, and makes at most one call
    of the backend, none when the mutex is held; the audio memory, the
    clock and the stored configuration are not touched. *)
Theorem play_midi_lock_discipline (w : W) (msg : list byte) (len : Z) :
  let w' := exec (generic_play_midi msg len) w in
  outcome (generic_play_midi msg len) w = Ok tt /\
  player_mutex w' = player_mutex w /\
  (exists calls,
     backend_calls (trace w') = backend_calls (trace w) ++ calls /\
     (length calls <= 1)%nat /\
     (player_mutex w = false \/ calls = [])) /\
  heap w' = heap w /\
  clock_reads w' = clock_reads w /\
  player_sample_rate w' = player_sample_rate w /\
  player_emulator_id w' = player_emulator_id w /\
  player_bank_file w' = player_bank_file w.
Proof.
  cbv zeta. unfold outcome, exec, generic_play_midi.
  unfold bind at 1 3 5 7 9 11 13 15.
  unfold try_lock. destruct (player_mutex w) eqn:Hmx; cbn [negb fst snd].
  - cbn. split; [reflexivity|]. split; [exact Hmx|]. split; [|tauto].
    exists (@nil Call). rewrite backend_calls_app, !app_nil_r. cbn.
    split; [reflexivity|]. split; [lia | auto].
  - destruct (play_midi_locked_cases msg len); cbn;
      (split; [reflexivity|]); (split; [reflexivity|]); (split; [|tauto]);
      rewrite <- ?app_assoc, !backend_calls_app; cbn.
    + exists (@nil Call). rewrite app_nil_r. cbn. split; [reflexivity|].
      split; [lia | auto].
    + exists [c]. split; [reflexivity|]. split; [cbn; lia | auto].
    + eexists [_]. split; [reflexivity|]. split; [cbn; lia | auto].
Qed.

(** A message the locked body turns into one call of the backend, run
    with the lock taken. *)
Lemma play_midi_forwarded (w : W) (msg : list byte) (len : Z)
  (c : Call) (f : Player -> Player) :
  play_midi_locked (DcFilter := DcFilter) (VuMonitor := VuMonitor) msg len
    = call c f ->
  player_mutex w = false ->
  let w' := exec (generic_play_midi msg len) w in
  trace w' = trace w ++ [EvTryLock true; EvBackend c; EvUnlock] /\
  player w' = f (player w) /\
  channel_map w' = channel_map w.
Proof.
  intros Hbody Hfree. cbv zeta. unfold exec, generic_play_midi.
  rewrite Hbody. unfold bind, try_lock. rewrite Hfree. cbn.
  rewrite <- !app_assoc. auto.
Qed.

(** The head of the locked body for a channel message built on
    [status_byte]. *)
Lemma play_midi_locked_dispatch (kind ch : Z) (data : list byte) (len : Z) :
  8 <= kind < 15 -> 0 <= ch < 16 -> 1 <= len ->
  play_midi_locked (DcFilter := DcFilter) (VuMonitor := VuMonitor)
    (status_byte kind ch :: data) len
  = dispatch (status_byte kind ch :: data) len
      (u8 (status_byte kind ch)) ch.
Proof.
  intros Hk Hch Hlen.
  destruct (status_byte_decode kind ch) as (Hsys & _ & Hchan); [lia..|].
  unfold play_midi_locked, msg_at. cbn [nth].
  destruct (Z.leb_spec len 0); [lia|].
  rewrite Hsys, Hchan. reflexivity.
Qed.

(** X2: a Note-On of at least three bytes with a velocity other than zero,
    processed with the lock taken, reaches the backend as exactly one
    note-on with the channel, key and velocity of the message, and leaves
    [channel_map] alone. *)
Theorem play_midi_note_on_forwarded (w : W) (ch : Z) (key vel : byte)
  (rest : list byte) (len : Z) :
  0 <= ch < 16 -> 3 <= len -> u8 vel <> 0 ->
  player_mutex w = false ->
  let w' :=
    exec (generic_play_midi (status_byte 9 ch :: key :: vel :: rest) len) w in
  trace w' = trace w ++ [EvTryLock true;
                         EvBackend (CNoteOn ch (u8 key) (u8 vel));
                         EvUnlock] /\
  player w' = rt_note_on (player w) ch (u8 key) (u8 vel) /\
  channel_map w' = channel_map w.
Proof.
  intros Hch Hlen Hvel Hfree.
  apply (play_midi_forwarded w _ len (CNoteOn ch (u8 key) (u8 vel))
           (fun p => rt_note_on p ch (u8 key) (u8 vel))); [|exact Hfree].
  rewrite play_midi_locked_dispatch by lia.
  destruct (status_byte_decode 9 ch) as (_ & Hkind & _); [lia..|].
  unfold dispatch. rewrite Hkind. unfold msg_at. cbn [nth].
  destruct (Z.ltb_spec len 3); [lia|].
  destruct (Z.eqb_spec (u8 vel) 0); [contradiction|]. reflexivity.
Qed.

(** X3: a Pitch-Bend of at least three bytes, processed with the lock
    taken, reaches the backend as one call whose first value is the second
    data byte and whose second value is the first data byte. *)
Theorem play_midi_pitch_bend_order (w : W) (ch : Z) (d1 d2 : byte)
  (rest : list byte) (len : Z) :
  0 <= ch < 16 -> 3 <= len ->
  player_mutex w = false ->
  let w' :=
    exec (generic_play_midi (status_byte 14 ch :: d1 :: d2 :: rest) len) w in
  trace w' = trace w ++ [EvTryLock true;
                         EvBackend (CPitchBend ch (u8 d2) (u8 d1));
                         EvUnlock] /\
  player w' = rt_pitchbend_ml (player w) ch (u8 d2) (u8 d1) /\
  channel_map w' = channel_map w.
Proof.
  intros Hch Hlen Hfree.
  apply (play_midi_forwarded w _ len (CPitchBend ch (u8 d2) (u8 d1))
           (fun p => rt_pitchbend_ml p ch (u8 d2) (u8 d1))); [|exact Hfree].
  rewrite play_midi_locked_dispatch by lia.
  destruct (status_byte_decode 14 ch) as (_ & Hkind & _); [lia..|].
  unfold dispatch. rewrite Hkind. unfold msg_at. cbn [nth].
  destruct (Z.ltb_spec len 3); [lia|]. reflexivity.
Qed.


(** X5: a message whose first byte is below [0x80] (a data byte, as in
    running status) is ignored: no call reaches the backend and
    [channel_map] is unchanged. *)
Theorem play_midi_data_byte_ignored (w : W) (msg : list byte) (len : Z) :
  msg_at msg 0 < 128 ->
  let w' := exec (generic_play_midi msg len) w in
  backend_calls (trace w') = backend_calls (trace w) /\
  player w' = player w /\
  channel_map w' = channel_map w.
Proof.
  intros Hdata.
  assert (Hbody :
    play_midi_locked (DcFilter := DcFilter) (VuMonitor := VuMonitor) msg len
    = ret tt).
  { unfold play_midi_locked.
    destruct (len <=? 0); [reflexivity|].
    destruct (Z.land (msg_at msg 0) 240 =? 240); [reflexivity|].
    unfold dispatch.
    pose proof (u8_range (nth 0 msg x00)) as Hr. fold (msg_at msg 0) in Hr.
    assert (Hs : 0 <= Z.shiftr (msg_at msg 0) 4 < 8).
    { rewrite Z.shiftr_div_pow2 by lia. change (2 ^ 4) with 16.
      split; [apply Z.div_pos; lia|].
      apply Z.div_lt_upper_bound; lia. }
    destruct (Z.shiftr (msg_at msg 0) 4) as [|p|p]; [reflexivity| |lia].
    do 4 (try destruct p as [p|p|]); try reflexivity; lia. }
  cbv zeta. unfold exec, generic_play_midi. rewrite Hbody.
  unfold bind, try_lock. destruct (player_mutex w); cbn;
    rewrite <- ?app_assoc, !backend_calls_app; cbn; rewrite ?app_nil_r; auto.
Qed.

(** X6: only a Program-Change changes [channel_map]: for every message
    whose status has another high nibble than [0xC], and every state, the
    map is the same after the call. *)
Theorem play_midi_channel_map_kept (w : W) (msg : list byte) (len : Z) :
  Z.shiftr (msg_at msg 0) 4 <> 12 ->
  channel_map (exec (generic_play_midi msg len) w) = channel_map w.
Proof.
  intros Hkind. unfold exec, generic_play_midi, bind at 1, try_lock.
  destruct (player_mutex w); [reflexivity|]. cbn [negb].
  unfold play_midi_locked.
  destruct (len <=? 0); [reflexivity|].
  destruct (Z.land (msg_at msg 0) 240 =? 240); [reflexivity|].
  destruct (dispatch_not_program msg len (msg_at msg 0)
              (Z.land (msg_at msg 0) 15) Hkind) as [-> | (c & f & ->)];
    reflexivity.
Qed.

(** X7: [generic_play_midi] keeps [channel_map] well formed: its length
    never changes, and if every entry holds a program below 128 before a
    call, every entry does after it. *)
Theorem play_midi_channel_map_invariant (w : W) (msg : list byte) (len : Z) :
  let w' := exec (generic_play_midi msg len) w in
  length (channel_map w') = length (channel_map w) /\
  (Forall (fun p => 0 <= gm p < 128) (channel_map w) ->
   Forall (fun p => 0 <= gm p < 128) (channel_map w')).
Proof.
  cbv zeta. unfold exec, generic_play_midi, bind at 1 3, try_lock.
  destruct (player_mutex w); [cbn; auto|]. cbn [negb].
  destruct (play_midi_locked_cases msg len); cbn; auto.
  split; [apply length_alter|].
  intros Hall. apply Forall_alter; [exact Hall|].
  intros [g] _. cbn [gm set_gm].
  pose proof (u8_range (nth 1 msg x00)) as Hr. fold (msg_at msg 1) in Hr.
  change 127 with (Z.ones 7). rewrite Z.land_ones by lia.
  pose proof (Z.mod_pos_bound (msg_at msg 1) (2 ^ 7)). lia.
Qed.

(** A Program-Change processed with the lock taken, field by field. *)
Lemma program_change_run (w : W) (ch : Z) (p : byte) (rest : list byte)
  (len : Z) :
  0 <= ch < 16 -> 2 <= len -> player_mutex w = false ->
  let w' := exec (generic_play_midi (status_byte 12 ch :: p :: rest) len) w in
  channel_map w'
    = alter (set_gm (Z.land (u8 p) 127)) (Z.to_nat ch) (channel_map w) /\
  player_mutex w' = false /\
  backend_calls (trace w')
    = backend_calls (trace w) ++ [CProgramChange ch (Z.land (u8 p) 127)].
Proof.
  intros Hch Hlen Hfree. cbv zeta. unfold exec, generic_play_midi.
  rewrite play_midi_locked_dispatch by lia.
  destruct (status_byte_decode 12 ch) as (_ & Hkind & _); [lia..|].
  unfold dispatch. rewrite Hkind.
  destruct (Z.ltb_spec len 2); [lia|].
  unfold msg_at. cbn [nth].
  unfold bind, try_lock. rewrite Hfree. cbn.
  rewrite <- ?app_assoc, !backend_calls_app. cbn.
  rewrite ?app_nil_r, <- ?app_assoc. cbn. auto.
Qed.

(** X25: [channel_map] holds the last program of each channel: after two
    Program-Changes on one channel, both processed with the lock taken,
    the entry of the channel holds the second program (masked to seven
    bits), the other entries are as before the first, and the backend has
    received both in order. *)
Theorem program_change_last_wins (w : W) (ch : Z) (p1 p2 : byte) :
  0 <= ch < 16 ->
  player_mutex w = false ->
  length (channel_map w) = 16%nat ->
  let w1 := exec (generic_play_midi [status_byte 12 ch; p1] 2) w in
  let w2 := exec (generic_play_midi [status_byte 12 ch; p2] 2) w1 in
  channel_map w2 !! Z.to_nat ch = Some (mkProgram (Z.land (u8 p2) 127)) /\
  (forall j : nat, j <> Z.to_nat ch ->
     channel_map w2 !! j = channel_map w !! j) /\
  backend_calls (trace w2)
    = backend_calls (trace w)
        ++ [CProgramChange ch (Z.land (u8 p1) 127);
            CProgramChange ch (Z.land (u8 p2) 127)].
Proof.
  intros Hch Hfree Hlen. cbv zeta.
  destruct (program_change_run w ch p1 [] 2 Hch ltac:(lia) Hfree)
    as (Hmap1 & Hfree1 & Hcalls1).
  destruct (program_change_run _ ch p2 [] 2 Hch ltac:(lia) Hfree1)
    as (Hmap2 & _ & Hcalls2).
  rewrite Hmap2, Hmap1, Hcalls2, Hcalls1, <- app_assoc.
  assert (Hlt : (Z.to_nat ch < length (channel_map w))%nat) by lia.
  destruct (lookup_lt_is_Some_2 _ _ Hlt) as [old Hold].
  split; [|split; [|reflexivity]].
  - rewrite !list_lookup_alter_eq, Hold. destruct old. reflexivity.
  - intros j Hj. rewrite !list_lookup_alter_ne by congruence. reflexivity.
Qed.

End Play_midi_more.

(* ===================================================================== *)
(** ** More on [generic_generate_outputs] *)
(* ===================================================================== *)

Section Generate_outputs_more.
Context {Player DcFilter VuMonitor : Type}.
Context {Traits : Player_Traits Player}.
Context {Conditioner : Signal_Conditioner DcFilter VuMonitor}.
Local Abbreviation W := (World Player DcFilter VuMonitor).

(** The silence loop changes the memory and nothing else; what it writes
    is zero. *)
Lemma silence_loop_memory (left right stride : Z) (k : nat) :
  forall (i : Z) (w : W),
  exists m,
    for_frames k i (silence_frame left right stride) tt w
      = (Ok tt, set_heap m w) /\
    (forall a, m a = 0%float \/ m a = heap w a).
Proof.
  induction k as [|k IH]; intros i w.
  - exists (heap w). split; [destruct w; reflexivity | auto].
  - cbn [for_frames]. unfold bind at 1.
    unfold silence_frame at 1, bind, write. cbn [fst snd].
    match goal with |- context [for_frames k (i + 1) _ tt ?w1] =>
      destruct (IH (i + 1) w1) as (m & Hrun & Hm) end.
    exists m. rewrite Hrun. split; [reflexivity|].
    intros a. destruct (Hm a) as [Hz | Hsame]; [auto|].
    rewrite Hsame. cbn. unfold store.
    destruct (a =? right + frame_offset i stride); [auto|].
    destruct (a =? left + frame_offset i stride); auto.
Qed.

(** The post-processing loop, with its events counted. *)
Lemma process_loop_events (left right stride : Z) (k : nat) :
  forall (i : Z) (lv : double * double) (w : W),
  exists lv' w',
    for_frames k i (process_frame left right stride) lv w = (Ok lv', w') /\
    same_registry w w' /\
    trace w' = trace w ++ concat (replicate k frame_events).
Proof.
  induction k as [|k IH]; intros i lv w.
  - exists lv, w. cbn. rewrite app_nil_r.
    unfold same_registry. intuition congruence.
  - cbn [for_frames]. unfold bind at 1.
    destruct (process_frame_step left right stride i lv w)
      as (lv1 & w1 & Hstep & Hreg1 & Ht1 & _).
    rewrite Hstep.
    destruct (IH (i + 1) lv1 w1) as (lv' & w' & Hrun & Hreg & Ht).
    exists lv', w'. split; [exact Hrun|].
    split; [unfold same_registry in *; intuition congruence|].
    rewrite Ht, Ht1, <- app_assoc. reflexivity.
Qed.

(** The call with the lock taken: its result, field by field. *)
Lemma generate_outputs_uncontended_world (w : W)
  (left right nframes stride : Z) :
  0 < nframes -> player_mutex w = false ->
  exists w',
    generic_generate_outputs left right nframes stride w = (Ok tt, w') /\
    trace w' = trace w ++ render_events left right stride w nframes
                 ++ concat (replicate (Z.to_nat nframes) frame_events)
                 ++ [EvStore TLevel; EvStore TCpuRatio] /\
    player_mutex w' = false /\
    clock_reads w' = S (S (clock_reads w)) /\
    channel_map w' = channel_map w /\
    player_sample_rate w' = player_sample_rate w /\
    player_emulator_id w' = player_emulator_id w /\
    player_bank_file w' = player_bank_file w.
Proof.
  intros Hn Hfree. unfold generic_generate_outputs.
  destruct (Z.leb_spec nframes 0); [lia|].
  unfold bind at 1. unfold try_lock at 1. rewrite Hfree. cbn [negb].
  unfold bind at 1. unfold now at 1. cbv zeta.
  unfold bind at 1. unfold Traits_generate_format at 1. cbv zeta.
  unfold bind at 1. unfold now at 1. cbv zeta.
  unfold bind at 1. unfold unlock at 1.
  unfold bind at 1.
  match goal with |- context [for_frames ?k 0 _ ?lv ?w1] =>
    destruct (process_loop_events left right stride k 0 lv w1)
      as (lv' & w2 & Hrun & Hreg & Ht)
  end.
  rewrite Hrun.
  destruct Hreg as (_ & Hb & Hc & Hsr & He & Hx & _ & Hrd & _).
  cbn in Hb, Hc, Hsr, He, Hx, Hrd, Ht.
  unfold bind, emit, assign. cbn.
  eexists. split; [reflexivity|]. cbn.
  split.
  { rewrite Ht. unfold render_events, render_format.
    rewrite <- !app_assoc. reflexivity. }
  tauto.
Qed.

(** X8: on every path (no frames, mutex held, mutex free) the call returns
    normally and leaves the mutex as it found it; it never changes
    [channel_map], the sample rate, the emulator id or the bank path. *)
Theorem generate_outputs_mutex_restored (w : W)
  (left right nframes stride : Z) :
  let w' := exec (generic_generate_outputs left right nframes stride) w in
  outcome (generic_generate_outputs left right nframes stride) w = Ok tt /\
  player_mutex w' = player_mutex w /\
  channel_map w' = channel_map w /\
  player_sample_rate w' = player_sample_rate w /\
  player_emulator_id w' = player_emulator_id w /\
  player_bank_file w' = player_bank_file w.
Proof.
  cbv zeta. unfold outcome, exec.
  destruct (Z.leb_spec nframes 0) as [Hle | Hn].
  { unfold generic_generate_outputs.
    destruct (Z.leb_spec nframes 0); [cbn; tauto | lia]. }
  destruct (player_mutex w) eqn:Hmx.
  - rewrite (generate_outputs_contended_run left right stride w nframes Hn Hmx).
    match goal with |- context [for_frames ?k 0 ?b tt ?w1] =>
      destruct (silence_loop_memory left right stride k 0 w1) as (m & Hrun & _)
    end.
    rewrite Hrun. cbn. tauto.
  - destruct (generate_outputs_uncontended_world w left right nframes stride
                Hn Hmx) as (w' & Hrun & _ & Hx & _ & Hrest).
    rewrite Hrun. cbn [fst snd]. rewrite Hx. tauto.
Qed.

(** X9: a call made while the mutex is held is a cycle of silence and
    nothing more: every address of the memory holds zero or what it held
    before, and the DC filters, the level monitors, the level readout, the
    load ratio and the clock are exactly as before. *)
Theorem generate_outputs_contended_only_zeros (w : W)
  (left right nframes stride : Z) :
  player_mutex w = true ->
  let w' := exec (generic_generate_outputs left right nframes stride) w in
  (forall a, heap w' a = 0%float \/ heap w' a = heap w a) /\
  dcfilter w' = dcfilter w /\
  lvmonitor w' = lvmonitor w /\
  lvcurrent w' = lvcurrent w /\
  cpuratio w' = cpuratio w /\
  clock_reads w' = clock_reads w.
Proof.
  intros Hmx. cbv zeta. unfold exec.
  destruct (Z.leb_spec nframes 0) as [Hle | Hn].
  { unfold generic_generate_outputs.
    destruct (Z.leb_spec nframes 0); [cbn; auto 10 | lia]. }
  rewrite (generate_outputs_contended_run left right stride w nframes Hn Hmx).
  match goal with |- context [for_frames ?k 0 ?b tt ?w1] =>
    destruct (silence_loop_memory left right stride k 0 w1) as (m & Hrun & Hm)
  end.
  rewrite Hrun. cbn. cbn in Hm. auto 10.
Qed.


(** X11: an interleaved stereo block ([right = left + 1], stride two) of
    [nframes] frames is zeroed as a whole when the mutex is held: the
    [2 * nframes] addresses from [left] hold zero and every other address
    holds what it held. *)
Theorem generate_outputs_interleaved_silence (w : W) (left nframes : Z)
  (a : Z) :
  0 < nframes -> 2 * nframes <= 2 ^ 32 ->
  player_mutex w = true ->
  let w' := exec (generic_generate_outputs left (left + 1) nframes 2) w in
  (left <= a < left + 2 * nframes -> heap w' a = 0%float) /\
  (~ left <= a < left + 2 * nframes -> heap w' a = heap w a).
Proof.
  intros Hn Hsmall Hmx. cbv zeta. split.
  - intros Ha.
    assert (Hi : 0 <= (a - left) / 2 < nframes).
    { split; [apply Z.div_pos; lia|].
      apply Z.div_lt_upper_bound; lia. }
    destruct (contended_silence_positions w left (left + 1) nframes 2
                ((a - left) / 2) Hn Hmx ltac:(lia) ltac:(lia) Hi)
      as [Hl Hr].
    pose proof (Z.div_mod (a - left) 2 ltac:(lia)) as Hdm.
    pose proof (Z.mod_pos_bound (a - left) 2 ltac:(lia)) as Hm.
    destruct (Z.eq_dec ((a - left) mod 2) 0) as [H0 | H1].
    + replace a with (left + (a - left) / 2 * 2) by lia. exact Hl.
    + replace a with (left + 1 + (a - left) / 2 * 2) by lia. exact Hr.
  - intros Hout. unfold exec.
    rewrite (generate_outputs_contended_run left (left + 1) 2 w nframes Hn Hmx).
    match goal with |- context [for_frames ?k 0 ?b tt ?w1] =>
      destruct (silence_loop left (left + 1) 2 k 0 w1)
        as (w' & Hrun & _ & _ & _ & Hf)
    end.
    rewrite Hrun. cbn [snd]. rewrite Hf; [reflexivity|].
    intros j Hj. rewrite frame_offset_exact by lia. lia.
Qed.

End Generate_outputs_more.

(* ===================================================================== *)
(** ** [generic_initialize_player] *)
(* ===================================================================== *)

Section Initialize_player.
Context {Player DcFilter VuMonitor : Type}.
Context {Traits : Player_Traits Player}.
Context {Conditioner : Signal_Conditioner DcFilter VuMonitor}.
Local Abbreviation W := (World Player DcFilter VuMonitor).

Variables dccutoff lvrelease : double.
Variables (sample_rate nchip : Z) (bankfile : option string) (emulator : Z).

(** The backend calls of the three steps that follow [Traits::init]. *)
Local Abbreviation emulator_calls :=
  (if 0 <=? emulator then [CSwitchEmulator emulator] else []).
Local Abbreviation bank_calls :=
  (match bankfile with Some file => [COpenBankFile file] | None => [] end).

Ltac run_start :=
  unfold outcome, exec, generic_initialize_player, bind, assign, throw, ret,
    Traits_switch_emulator, Traits_open_bank_file, Traits_set_num_chips,
    call_status.

Ltac decide_status :=
  repeat match goal with
         | |- context [?a <? 0] =>
           destruct (Z.ltb_spec a 0); cbn in *; try lia
         end.

(** X12: when the backend gives a player and accepts every step, start-up
    returns normally with the player, the sample rate, the emulator id and
    the bank path stored and both filters and monitors configured; the
    backend is called in the order emulator, bank, chip count, and the
    emulator and bank steps are skipped for a negative emulator and for no
    bank file, leaving the stored emulator id and bank path as they
    were. *)
Theorem initialize_player_success (w : W) (p : Player) :
  init sample_rate = Some p ->
  let pe := if 0 <=? emulator then switch_emulator p emulator else (p, 0) in
  let pb := match bankfile with
            | Some file => open_bank_file (fst pe) file
            | None => (fst pe, 0)
            end in
  let pc := set_num_chips (fst pb) nchip in
  0 <= snd pe -> 0 <= snd pb -> 0 <= snd pc ->
  let w' := exec
    (generic_initialize_player dccutoff lvrelease sample_rate nchip
       bankfile emulator) w in
  outcome
    (generic_initialize_player dccutoff lvrelease sample_rate nchip
       bankfile emulator) w = Ok tt /\
  player w' = fst pc /\
  player_sample_rate w' = sample_rate /\
  player_emulator_id w'
    = (if 0 <=? emulator then emulator else player_emulator_id w) /\
  player_bank_file w'
    = (match bankfile with Some file => Some file
       | None => player_bank_file w end) /\
  backend_calls (trace w')
    = backend_calls (trace w) ++ emulator_calls ++ bank_calls
        ++ [CSetNumChips nchip] /\
  dcfilter w'
    = (dc_cutoff (fst (dcfilter w))
         (PrimFloat.div dccutoff (double_of_Z sample_rate)),
       dc_cutoff (snd (dcfilter w))
         (PrimFloat.div dccutoff (double_of_Z sample_rate))) /\
  lvmonitor w'
    = (vu_release (fst (lvmonitor w))
         (PrimFloat.mul lvrelease (double_of_Z sample_rate)),
       vu_release (snd (lvmonitor w))
         (PrimFloat.mul lvrelease (double_of_Z sample_rate))).
Proof.
  intros Hinit. cbv zeta. run_start. rewrite Hinit.
  destruct (0 <=? emulator); destruct bankfile as [file|];
    cbn; intros He Hb Hc; decide_status; cbn;
    rewrite <- ?app_assoc, ?backend_calls_app; cbn;
    rewrite ?app_nil_r, <- ?app_assoc; cbn; auto 10.
Qed.

(** X13: start-up fails at the first step the backend refuses, with the
    message of that step, and makes no later call of the backend. With no
    player the state is untouched. A refused emulator leaves the new
    player and sample rate installed and the old emulator id stored; a
    refused bank file leaves the old bank path stored; a refused chip
    count leaves the filters and monitors unconfigured. *)
Theorem initialize_player_first_failure (w : W) :
  (init sample_rate = None ->
   outcome
    (generic_initialize_player dccutoff lvrelease sample_rate nchip
       bankfile emulator) w = Throw "error instantiating ADLMIDI" /\
   exec
    (generic_initialize_player dccutoff lvrelease sample_rate nchip
       bankfile emulator) w = w) /\
  (forall p : Player,
   init sample_rate = Some p ->
   let pe := if 0 <=? emulator then switch_emulator p emulator else (p, 0) in
   let pb := match bankfile with
             | Some file => open_bank_file (fst pe) file
             | None => (fst pe, 0)
             end in
   let pc := set_num_chips (fst pb) nchip in
   let w' := exec
    (generic_initialize_player dccutoff lvrelease sample_rate nchip
       bankfile emulator) w in
   (snd pe < 0 ->
    outcome
    (generic_initialize_player dccutoff lvrelease sample_rate nchip
       bankfile emulator) w = Throw "error selecting emulator" /\
    player w' = fst pe /\
    player_sample_rate w' = sample_rate /\
    player_emulator_id w' = player_emulator_id w /\
    backend_calls (trace w') = backend_calls (trace w) ++ emulator_calls) /\
   (0 <= snd pe -> snd pb < 0 ->
    outcome
    (generic_initialize_player dccutoff lvrelease sample_rate nchip
       bankfile emulator) w = Throw "error loading bank file" /\
    player w' = fst pb /\
    player_bank_file w' = player_bank_file w /\
    backend_calls (trace w')
      = backend_calls (trace w) ++ emulator_calls ++ bank_calls) /\
   (0 <= snd pe -> 0 <= snd pb -> snd pc < 0 ->
    outcome
    (generic_initialize_player dccutoff lvrelease sample_rate nchip
       bankfile emulator) w = Throw "error setting the number of chips" /\
    player w' = fst pc /\
    dcfilter w' = dcfilter w /\
    lvmonitor w' = lvmonitor w)).
Proof.
  split.
  - intros Hinit. run_start. rewrite Hinit. auto.
  - intros p Hinit. cbv zeta. run_start. rewrite Hinit.
    destruct (0 <=? emulator); destruct bankfile as [file|];
      cbn; (split; [|split]); intros; decide_status; cbn;
      rewrite <- ?app_assoc, ?backend_calls_app; cbn;
      rewrite ?app_nil_r, <- ?app_assoc; cbn; auto 10.
Qed.

(** X14: start-up never touches the mutex, the audio memory, the clock or
    [channel_map], whatever its outcome, and it writes the level readout
    and the load ratio never. *)
Theorem initialize_player_untouched (w : W) :
  let w' := exec
    (generic_initialize_player dccutoff lvrelease sample_rate nchip
       bankfile emulator) w in
  player_mutex w' = player_mutex w /\
  heap w' = heap w /\
  clock_reads w' = clock_reads w /\
  channel_map w' = channel_map w /\
  lvcurrent w' = lvcurrent w /\
  cpuratio w' = cpuratio w.
Proof.
  cbv zeta. run_start.
  destruct (init sample_rate); [|auto 10].
  destruct (0 <=? emulator); destruct bankfile as [file|]; cbn;
    repeat match goal with
           | |- context [?a <? 0] => destruct (a <? 0); cbn
           end; auto 10.
Qed.

End Initialize_player.

(* ===================================================================== *)
(** ** More on the dynamic reconfiguration operations *)
(* ===================================================================== *)

Section Reconfiguration_more.
Context {Player DcFilter VuMonitor : Type}.
Context {Traits : Player_Traits Player}.
Context {Conditioner : Signal_Conditioner DcFilter VuMonitor}.
Local Abbreviation W := (World Player DcFilter VuMonitor).

(** X15: each of the three operations ends with the mutex free, on the
    failure paths as on the success paths and whether or not the mutex was
    held when it was called, and none of them changes the real-time state
    ([channel_map], the audio memory, the filters, the monitors, the
    telemetry, the clock); changing the chip count changes neither the
    stored emulator id nor the stored bank path. *)
Theorem reconfiguration_releases_mutex (w : W) :
  (forall nchip : Z,
     let w' := exec (generic_player_dynamic_set_chip_count nchip) w in
     player_mutex w' = false /\ same_realtime_state w w' /\
     player_emulator_id w' = player_emulator_id w /\
     player_bank_file w' = player_bank_file w) /\
  (forall emulator : Z,
     let w' := exec (generic_player_dynamic_set_emulator emulator) w in
     player_mutex w' = false /\ same_realtime_state w w') /\
  (forall bankfile : string,
     let w' := exec (generic_player_dynamic_load_bank bankfile) w in
     player_mutex w' = false /\ same_realtime_state w w').
Proof.
  unfold same_realtime_state.
  split; [|split]; intros x; cbv zeta; unfold exec;
    rewrite ?set_chip_count_run, ?set_emulator_run, ?load_bank_run;
    cbn; auto 12.
Qed.


(** X17: a message that arrives after a reconfiguration has returned is
    not dropped: a Note-Off sent after a change of chip count reaches the
    backend, on the player the reconfiguration left. *)
Theorem note_off_after_reconfiguration (w : W) (nchip ch : Z)
  (key vel : byte) :
  0 <= ch < 16 ->
  let w1 := exec (generic_player_dynamic_set_chip_count nchip) w in
  let w2 := exec (generic_play_midi [status_byte 8 ch; key; vel] 3) w1 in
  backend_calls (trace w2)
    = backend_calls (trace w)
        ++ [CPanic; CSetNumChips nchip; CNoteOff ch (u8 key)] /\
  player w2
    = rt_note_off (fst (set_num_chips (panic (player w)) nchip)) ch (u8 key).
Proof.
  intros Hch. cbv zeta. unfold exec at 1 3. unfold generic_play_midi.
  rewrite play_midi_locked_note_off by lia.
  unfold exec. rewrite set_chip_count_run. cbn.
  rewrite <- ?app_assoc, !backend_calls_app. cbn.
  rewrite ?app_nil_r, <- ?app_assoc. cbn. auto.
Qed.

End Reconfiguration_more.

(* ===================================================================== *)
(** ** Player names and the command line *)
(* ===================================================================== *)

Section Command_line_facts.
Variable Player_Type : Type.
Variable all_player_types : list Player_Type.
Variable player_name : Player_Type -> string.
Variable stoi : string -> Res Z.
Variable curses : bool.

(** X18: [player_by_name] answers with a player type of the list that
    bears the name, and with [(Player_Type)-1] exactly when no player type
    of the list bears it. *)
Theorem player_by_name_sound (name : string) :
  (forall pt,
     player_by_name Player_Type all_player_types player_name name = Some pt ->
     In pt all_player_types /\ player_name pt = name) /\
  (player_by_name Player_Type all_player_types player_name name = None <->
     forall pt, In pt all_player_types -> player_name pt <> name).
Proof.
  unfold player_by_name. split; [|split].
  - intros pt Hfind. apply find_some in Hfind as [Hin Heq].
    split; [exact Hin|]. apply String.eqb_eq in Heq. auto.
  - intros Hnone pt Hin Heq.
    pose proof (find_none _ _ Hnone pt Hin) as Hf. cbn in Hf.
    rewrite <- Heq, String.eqb_refl in Hf. discriminate.
  - intros Hall.
    destruct (find _ all_player_types) as [pt|] eqn:Hfind; [|reflexivity].
    apply find_some in Hfind as [Hin Heq]. apply String.eqb_eq in Heq.
    exfalso. apply (Hall pt Hin). auto.
Qed.

(** X19: when the player types of the list bear different names, looking
    up the name of a player type of the list gives that player type
    back. *)
Theorem player_by_name_round_trip (pt : Player_Type) :
  List.NoDup (map player_name all_player_types) ->
  In pt all_player_types ->
  player_by_name Player_Type all_player_types player_name
    (player_name pt) = Some pt.
Proof.
  unfold player_by_name.
  induction all_player_types as [|q l IH]; intros Hnd Hin; [destruct Hin|].
  cbn [find]. cbn [map] in Hnd. inversion Hnd as [|? ? Hq Hl]; subst.
  destruct (String.eqb_spec (player_name pt) (player_name q)) as [Heq | Hne].
  - destruct Hin as [-> | Hin]; [reflexivity|].
    exfalso. apply Hq. rewrite <- Heq. apply in_map. exact Hin.
  - destruct Hin as [-> | Hin]; [congruence|]. apply IH; assumption.
Qed.

Lemma getopt_diagnostics_cons (g : Getopt_call) (calls : list Getopt_call) :
  getopt_diagnostics (g :: calls)
  = getopt_diagnostics [g] ++ getopt_diagnostics calls.
Proof.
  unfold getopt_diagnostics. cbn [map List.filter].
  destruct (negb (String.eqb (diagnostic g) EmptyString)); reflexivity.
Qed.

(** Recording the diagnostic of one call changes only what was shown. *)
Lemma show_diagnostic_shown (g : Getopt_call) (a : Args Player_Type) :
  shown (show_diagnostic (diagnostic g) a)
    = shown a ++ getopt_diagnostics [g] /\
  player_type (show_diagnostic (diagnostic g) a) = player_type a /\
  arg_nchip (show_diagnostic (diagnostic g) a) = arg_nchip a.
Proof.
  unfold show_diagnostic, getopt_diagnostics. cbn [map List.filter].
  destruct (String.eqb (diagnostic g) EmptyString); cbn;
    rewrite ?app_nil_r; auto.
Qed.



(** X21: a run of [generic_getopt] that ends the process says why, as its
    last output after what [getopt] itself wrote: it exits with status 0
    after a call of the usage function, or with status 1 after the line
    ["invalid player name"] when the name given is that of no player type,
    or after the line ["invalid number of chips"] when the count given,
    read as an [int], is below 1. No other exit occurs. *)
Theorem getopt_exits_explained (calls : list Getopt_call) :
  forall (a a' : Args Player_Type) (status : Z),
  generic_getopt Player_Type all_player_types player_name stoi curses
    calls a = (Exited status, a') ->
  exists made : nat,
    (status = 0 /\
     shown a' = shown a ++ getopt_diagnostics (firstn made calls)
                  ++ [Usage]) \/
    (status = 1 /\ player_type a' = None /\
     shown a' = shown a ++ getopt_diagnostics (firstn made calls)
                  ++ [Stderr (String.append "invalid player name" (String "010"%char EmptyString))]) \/
    (status = 1 /\ s32 (arg_nchip a') < 1 /\
     shown a' = shown a ++ getopt_diagnostics (firstn made calls)
                  ++ [Stderr (String.append "invalid number of chips"
                                (String "010"%char EmptyString))]).
Proof.
  induction calls as [|g rest IH]; intros a a' status Hrun;
    cbn [generic_getopt] in Hrun; cbv zeta in Hrun; [discriminate|].
  destruct (show_diagnostic_shown g a) as (Hd & Hdp & Hdn).
  assert (Hmore :
    forall k tail, (shown a ++ getopt_diagnostics [g])
                ++ getopt_diagnostics (firstn k rest) ++ tail
              = shown a ++ getopt_diagnostics (firstn (S k) (g :: rest))
                  ++ tail).
  { intros k tail. cbn [firstn].
    rewrite (getopt_diagnostics_cons g (firstn k rest)).
    rewrite <- !app_assoc. reflexivity. }
  assert (Hnext :
    forall a1 : Args Player_Type,
    shown a1 = shown a ++ getopt_diagnostics [g] ->
    generic_getopt Player_Type all_player_types player_name stoi curses
      rest a1 = (Exited status, a') ->
    exists made : nat,
      (status = 0 /\
       shown a' = shown a ++ getopt_diagnostics (firstn made (g :: rest))
                    ++ [Usage]) \/
      (status = 1 /\ player_type a' = None /\
       shown a' = shown a ++ getopt_diagnostics (firstn made (g :: rest))
                    ++ [Stderr (String.append "invalid player name"
                                  (String "010"%char EmptyString))]) \/
      (status = 1 /\ s32 (arg_nchip a') < 1 /\
       shown a' = shown a ++ getopt_diagnostics (firstn made (g :: rest))
                    ++ [Stderr (String.append "invalid number of chips"
                                  (String "010"%char EmptyString))])).
  { intros a1 Hs1 Hrest. apply IH in Hrest as (k & Hcases).
    exists (S k). rewrite Hs1 in Hcases.
    destruct Hcases as [(-> & Hs) | [(-> & Hwhy & Hs) | (-> & Hwhy & Hs)]];
      rewrite Hmore in Hs; auto. }
  destruct (returned g =? -1); [discriminate|].
  destruct (returned g =? opt_p).
  { cbn in Hrun.
    destruct (player_by_name _ _ _ (optarg g)) as [pt|] eqn:Hpt.
    - refine (Hnext _ _ Hrun); exact Hd.
    - injection Hrun as <- <-. exists 1%nat. right. left.
      split; [reflexivity|]. split; [reflexivity|].
      cbn. rewrite Hd, <- app_assoc. reflexivity. }
  destruct (returned g =? opt_n).
  { destruct (stoi (optarg g)) as [n|what]; [|discriminate].
    cbn in Hrun. destruct (Z.ltb_spec (s32 (u32 n)) 1) as [Hlow|].
    - injection Hrun as <- <-. exists 1%nat. right. right.
      split; [reflexivity|]. split; [exact Hlow|].
      cbn. rewrite Hd, <- app_assoc. reflexivity.
    - refine (Hnext _ _ Hrun); exact Hd. }
  destruct (returned g =? opt_b); [refine (Hnext _ _ Hrun); exact Hd|].
  destruct (returned g =? opt_e).
  { destruct (stoi (optarg g)) as [n|what]; [|discriminate].
    refine (Hnext _ _ Hrun); exact Hd. }
  destruct (returned g =? opt_h).
  { injection Hrun as <- <-. exists 1%nat. left. split; [reflexivity|].
    cbn. rewrite Hd, <- app_assoc. reflexivity. }
  destruct ((returned g =? opt_t) && curses); [refine (Hnext _ _ Hrun); exact Hd|].
  discriminate.
Qed.

End Command_line_facts.

(* ===================================================================== *)
(** ** [generic_enumerate_emulators] and [print_volume_bar] *)
(* ===================================================================== *)

Section Enumerate_emulators_facts.
Context {Player : Type}.
Context {Traits : Player_Traits Player}.
Context {Names : Player_Names Player}.

(** The names of the emulators [first .. first + k - 1] of a table. *)
Local Abbreviation names_from table first k :=
  (map (fun j : nat => table (first + Z.of_nat j)) (seq 0 k)).

Lemma enumerate_loop_table (count : Z) (table : Z -> string) :
  count < 2 ^ 32 ->
  (forall p i, 0 <= i < count -> snd (switch_emulator p i) = 0) ->
  (forall p, snd (switch_emulator p count) <> 0) ->
  (forall p i, 0 <= i < count ->
     emulator_name (fst (switch_emulator p i)) = table i) ->
  forall (fuel : nat) (i : Z) (p : Player) (names : list string),
  0 <= i <= count -> (Z.to_nat (count - i) < fuel)%nat ->
  enumerate_loop fuel i p names
  = Some (names ++ names_from table i (Z.to_nat (count - i))).
Proof.
  intros Hsmall Haccept Hreject Hname.
  induction fuel as [|fuel IH]; intros i p names Hi Hfuel; [lia|].
  cbn [enumerate_loop]. cbv zeta.
  destruct (Z.eq_dec i count) as [-> | Hne].
  - destruct (Z.eqb_spec (snd (switch_emulator p count)) 0) as [H0|_];
      [exfalso; exact (Hreject p H0)|].
    rewrite Z.sub_diag. cbn. rewrite app_nil_r. reflexivity.
  - rewrite (Haccept p i) by lia. cbn [Z.eqb].
    assert (Hnext : u32 (i + 1) = i + 1)
      by (unfold u32; apply Z.mod_small; lia).
    rewrite Hnext, IH by lia.
    rewrite (Hname p i) by lia.
    replace (Z.to_nat (count - i)) with (S (Z.to_nat (count - (i + 1))))
      by lia.
    cbn [seq map]. rewrite <- app_assoc. cbn [app].
    rewrite Z.add_0_r. do 3 f_equal.
    rewrite <- seq_shift, map_map. apply map_ext. intros j. f_equal. lia.
Qed.

(** X22: for a backend with [count] emulators (it accepts the ids below
    [count], whatever the player, and refuses [count]) the enumeration
    ends after [count + 1] tests and returns exactly the [count] names of
    the emulators, in the order of their ids. *)
Theorem enumerate_emulators_table (count : Z) (table : Z -> string)
  (p0 : Player) (fuel : nat) :
  0 <= count < 2 ^ 32 ->
  init 44100 = Some p0 ->
  (forall p i, 0 <= i < count -> snd (switch_emulator p i) = 0) ->
  (forall p, snd (switch_emulator p count) <> 0) ->
  (forall p i, 0 <= i < count ->
     emulator_name (fst (switch_emulator p i)) = table i) ->
  (Z.to_nat count < fuel)%nat ->
  generic_enumerate_emulators fuel
  = Some (map (fun j : nat => table (Z.of_nat j)) (seq 0 (Z.to_nat count))).
Proof.
  intros Hcount Hinit Haccept Hreject Hname Hfuel.
  unfold generic_enumerate_emulators. rewrite Hinit.
  rewrite (enumerate_loop_table count table) by (auto; lia).
  rewrite Z.sub_0_r. reflexivity.
Qed.

(** X23: the enumeration relies on the backend to refuse an id: with a
    backend that accepts every id the loop has not ended after any number
    of tests. *)
Theorem enumerate_emulators_needs_refusal :
  (forall (p : Player) (i : Z), snd (switch_emulator p i) = 0) ->
  forall fuel : nat, generic_enumerate_emulators fuel = None.
Proof.
  intros Haccept fuel. unfold generic_enumerate_emulators.
  destruct (init 44100) as [p0|]; [|reflexivity].
  generalize 0 p0 (@nil string).
  induction fuel as [|fuel IH]; intros i p names; [reflexivity|].
  cbn [enumerate_loop]. cbv zeta. rewrite Haccept. cbn [Z.eqb]. apply IH.
Qed.

End Enumerate_emulators_facts.

Lemma volume_bar_cells_shape (k : nat) : forall (i size : Z) (vol : double),
  String.length (volume_bar_cells k i size vol) = k /\
  forall c, In c (String.list_ascii_of_string (volume_bar_cells k i size vol)) ->
    c = "*"%char \/ c = "-"%char.
Proof.
  induction k as [|k IH]; intros i size vol; [cbn; tauto|].
  cbn [volume_bar_cells]. cbv zeta. cbn [String.length String.list_ascii_of_string].
  destruct (IH (i + 1) size vol) as [Hlen Hcells].
  split; [rewrite Hlen; reflexivity|].
  intros c [<- | Hin]; [|auto].
  destruct (PrimFloat.ltb _ vol); auto.
Qed.

Lemma string_length_append (s t : string) :
  String.length (String.append s t) = (String.length s + String.length t)%nat.
Proof.
  induction s as [|c s IH]; [reflexivity|].
  simpl. f_equal. exact IH.
Qed.

(** X24: [print_volume_bar] prints nothing for a size below two;
    otherwise it prints an opening bracket, exactly [size] cells, each a
    star or a dash, and a closing bracket, whatever the level (also for a
    level that is not a number). *)
Theorem print_volume_bar_shape (size : Z) (vol : double) :
  (size < 2 -> print_volume_bar size vol = EmptyString) /\
  (2 <= size ->
   exists cells,
     print_volume_bar size vol
       = String.append "[" (String.append cells "]") /\
     String.length cells = Z.to_nat size /\
     String.length (print_volume_bar size vol) = Z.to_nat (size + 2) /\
     forall c, In c (String.list_ascii_of_string cells) ->
       c = "*"%char \/ c = "-"%char).
Proof.
  unfold print_volume_bar. split; intros Hsize.
  - destruct (Z.ltb_spec size 2); [reflexivity|lia].
  - destruct (Z.ltb_spec size 2); [lia|].
    destruct (volume_bar_cells_shape (Z.to_nat size) 0 size vol)
      as [Hlen Hcells].
    eexists. split; [reflexivity|]. split; [exact Hlen|]. split; [|exact Hcells].
    rewrite !string_length_append, Hlen. cbn. lia.
Qed.

(* ===================================================================== *)
(** ** The further properties on the small backend *)
(* ===================================================================== *)

(** Witness of X2: [90 40 7f] after start-up. *)
Lemma play_midi_note_on_forwarded_witness :
  trace (exec (generic_play_midi [status_byte 9 0; x40; x7f] 3) Sim.started)
  = trace Sim.started
      ++ [EvTryLock true; EvBackend (CNoteOn 0 (u8 x40) (u8 x7f)); EvUnlock].
Proof.
  apply (play_midi_note_on_forwarded Sim.started 0 x40 x7f [] 3);
    [lia | lia | discriminate | reflexivity].
Defined.

(** Witness of X3: [e1 12 34] after start-up. *)
Lemma play_midi_pitch_bend_order_witness :
  trace (exec (generic_play_midi [status_byte 14 1; x12; x34] 3) Sim.started)
  = trace Sim.started
      ++ [EvTryLock true; EvBackend (CPitchBend 1 (u8 x34) (u8 x12)); EvUnlock].
Proof.
  apply (play_midi_pitch_bend_order Sim.started 1 x12 x34 [] 3);
    [lia | lia | reflexivity].
Defined.


(** Witness of X5: a message that starts with the data byte [40]. *)
Lemma play_midi_data_byte_ignored_witness :
  backend_calls (trace (exec (generic_play_midi [x40; x7f] 2) Sim.started))
  = backend_calls (trace Sim.started).
Proof.
  apply (play_midi_data_byte_ignored Sim.started [x40; x7f] 2). reflexivity.
Defined.

(** Witness of X6: a Note-On. *)
Lemma play_midi_channel_map_kept_witness :
  channel_map (exec (generic_play_midi [x90; x40; x7f] 3) Sim.started)
  = channel_map Sim.started.
Proof.
  apply (play_midi_channel_map_kept Sim.started [x90; x40; x7f] 3).
  discriminate.
Defined.

(** Witness of X7: a Program-Change with program byte [ff]. *)
Lemma play_midi_channel_map_invariant_witness :
  Forall (fun p => 0 <= gm p < 128)
    (channel_map (exec (generic_play_midi [xc3; xff] 2) Sim.started)).
Proof.
  apply (proj2 (play_midi_channel_map_invariant Sim.started [xc3; xff] 2)).
  vm_compute. repeat constructor; discriminate.
Defined.

(** Witness of X25: programs [05] then [ff] on channel 3. *)
Lemma program_change_last_wins_witness :
  channel_map
    (exec (generic_play_midi [status_byte 12 3; xff] 2)
       (exec (generic_play_midi [status_byte 12 3; x05] 2) Sim.started))
    !! Z.to_nat 3
  = Some (mkProgram (Z.land (u8 xff) 127)).
Proof.
  apply (program_change_last_wins Sim.started 3 x05 xff);
    [lia | reflexivity | reflexivity].
Defined.

(** Witness of X9: four frames while the mutex is held. *)
Lemma generate_outputs_contended_only_zeros_witness :
  cpuratio (exec (generic_generate_outputs 0 1 4 2) Sim.contended)
  = cpuratio Sim.contended.
Proof.
  apply (generate_outputs_contended_only_zeros Sim.contended 0 1 4 2).
  reflexivity.
Defined.


(** Witness of X11: address 7 of an interleaved block of four frames. *)
Lemma generate_outputs_interleaved_silence_witness :
  heap (exec (generic_generate_outputs 0 (0 + 1) 4 2) Sim.contended) 7
  = 0%float.
Proof.
  apply (generate_outputs_interleaved_silence Sim.contended 0 4 7);
    [lia | lia | reflexivity | lia].
Defined.

(** Witness of X12: start-up at 44100 Hz with 2 chips, the bank
    ["bank.wopl"] and emulator 1. *)
Lemma initialize_player_success_witness :
  outcome (generic_initialize_player 0x1.4p+2%float 0x1.47ae147ae147bp-6%float
             44100 2 (Some "bank.wopl") 1) Sim.blank = Ok tt.
Proof.
  apply (initialize_player_success 0x1.4p+2%float 0x1.47ae147ae147bp-6%float
           44100 2 (Some "bank.wopl"%string) 1 Sim.blank
           (Sim.mkSim 44100 0 1 None []));
    [reflexivity | discriminate | discriminate | discriminate].
Defined.

(** Witness of X13: start-up with the bank ["nonexistent.wopl"]. *)
Lemma initialize_player_first_failure_witness :
  outcome (generic_initialize_player 0x1.4p+2%float 0x1.47ae147ae147bp-6%float
             44100 2 (Some "nonexistent.wopl") 1) Sim.blank
  = Throw "error loading bank file".
Proof.
  destruct (initialize_player_first_failure
              0x1.4p+2%float 0x1.47ae147ae147bp-6%float
              44100 2 (Some "nonexistent.wopl"%string) 1 Sim.blank)
    as [_ Hsome].
  destruct (Hsome (Sim.mkSim 44100 0 1 None []) eq_refl) as (_ & Hbank & _).
  apply Hbank; [discriminate | reflexivity].
Defined.


(** Witness of X17: a Note-Off after a change to three chips. *)
Lemma note_off_after_reconfiguration_witness :
  backend_calls
    (trace (exec (generic_play_midi [status_byte 8 0; x40; x00] 3)
              (exec (generic_player_dynamic_set_chip_count 3) Sim.started)))
  = backend_calls (trace Sim.started)
      ++ [CPanic; CSetNumChips 3; CNoteOff 0 (u8 x40)].
Proof.
  apply (note_off_after_reconfiguration Sim.started 3 0 x40 x00). lia.
Defined.

(** Witness of X18: the name ["OPNMIDI"] among the two player types. *)
Lemma player_by_name_sound_witness :
  In SimNames.OPN2 [SimNames.OPL3; SimNames.OPN2] /\
  SimNames.sim_player_name SimNames.OPN2 = "OPNMIDI".
Proof.
  apply (proj1 (player_by_name_sound SimNames.Sim_Player_Type
                  [SimNames.OPL3; SimNames.OPN2] SimNames.sim_player_name
                  "OPNMIDI") SimNames.OPN2).
  reflexivity.
Defined.

(** Witness of X19: the second of the two player types. *)
Lemma player_by_name_round_trip_witness :
  player_by_name SimNames.Sim_Player_Type [SimNames.OPL3; SimNames.OPN2]
    SimNames.sim_player_name (SimNames.sim_player_name SimNames.OPN2)
  = Some SimNames.OPN2.
Proof.
  apply (player_by_name_round_trip SimNames.Sim_Player_Type
           [SimNames.OPL3; SimNames.OPN2] SimNames.sim_player_name).
  - repeat constructor; cbn; intuition discriminate.
  - right. left. reflexivity.
Defined.


(** The same run shows the diagnostic of [getopt] and nothing else. *)
Example getopt_unknown_option :
  generic_getopt SimNames.Sim_Player_Type
    [SimNames.OPL3; SimNames.OPN2] SimNames.sim_player_name
    SimNames.sim_stoi false
    [mkGetopt_call opt_n "2" "";
     mkGetopt_call opt_b "bank.wopl" "";
     mkGetopt_call 63 "" "invalid option -- 'x'"]
    SimNames.defaults
  = (Returned 63,
     mkArgs (Some SimNames.OPL3) 2 (Some "bank.wopl"%string) (-1) false
       [Stderr "invalid option -- 'x'"]).
Proof. reflexivity. Qed.

(** Witness of X21: [-n 0]. *)
Lemma getopt_exits_explained_witness :
  exists made : nat,
    (1 = 0 /\
     shown (snd (generic_getopt SimNames.Sim_Player_Type
                   [SimNames.OPL3; SimNames.OPN2] SimNames.sim_player_name
                   SimNames.sim_stoi false [mkGetopt_call opt_n "0" ""]
                   SimNames.defaults))
     = shown SimNames.defaults
         ++ getopt_diagnostics
              (firstn made [mkGetopt_call opt_n "0" ""])
         ++ [Usage]) \/
    (1 = 1 /\
     player_type
       (snd (generic_getopt SimNames.Sim_Player_Type
               [SimNames.OPL3; SimNames.OPN2] SimNames.sim_player_name
               SimNames.sim_stoi false [mkGetopt_call opt_n "0" ""]
               SimNames.defaults)) = None /\
     shown (snd (generic_getopt SimNames.Sim_Player_Type
                   [SimNames.OPL3; SimNames.OPN2] SimNames.sim_player_name
                   SimNames.sim_stoi false [mkGetopt_call opt_n "0" ""]
                   SimNames.defaults))
     = shown SimNames.defaults
         ++ getopt_diagnostics
              (firstn made [mkGetopt_call opt_n "0" ""])
         ++ [Stderr (String.append "invalid player name" (String "010"%char EmptyString))]) \/
    (1 = 1 /\
     s32 (arg_nchip
            (snd (generic_getopt SimNames.Sim_Player_Type
                    [SimNames.OPL3; SimNames.OPN2] SimNames.sim_player_name
                    SimNames.sim_stoi false [mkGetopt_call opt_n "0" ""]
                    SimNames.defaults))) < 1 /\
     shown (snd (generic_getopt SimNames.Sim_Player_Type
                   [SimNames.OPL3; SimNames.OPN2] SimNames.sim_player_name
                   SimNames.sim_stoi false [mkGetopt_call opt_n "0" ""]
                   SimNames.defaults))
     = shown SimNames.defaults
         ++ getopt_diagnostics
              (firstn made [mkGetopt_call opt_n "0" ""])
         ++ [Stderr (String.append "invalid number of chips"
                        (String "010"%char EmptyString))]).
Proof.
  apply (getopt_exits_explained SimNames.Sim_Player_Type
           [SimNames.OPL3; SimNames.OPN2] SimNames.sim_player_name
           SimNames.sim_stoi false [mkGetopt_call opt_n "0" ""]
           SimNames.defaults).
  reflexivity.
Defined.

(** [-n 0] ends the run with status 1 and its message. *)
Example getopt_zero_chips :
  generic_getopt SimNames.Sim_Player_Type
    [SimNames.OPL3; SimNames.OPN2] SimNames.sim_player_name
    SimNames.sim_stoi false [mkGetopt_call opt_n "0" ""] SimNames.defaults
  = (Exited 1,
     mkArgs (Some SimNames.OPL3) 0 None (-1) false
       [Stderr (String.append "invalid number of chips"
                        (String "010"%char EmptyString))]).
Proof. reflexivity. Qed.

(** Witness of X22: the two emulators of the small backend. *)
Lemma enumerate_emulators_table_witness :
  generic_enumerate_emulators (Player := Sim.SimPlayer) 3
  = Some ["Nuked"; "DosBox"].
Proof.
  apply (enumerate_emulators_table (Player := Sim.SimPlayer) 2
           (fun i => if i =? 0 then "Nuked" else "DosBox")
           (Sim.mkSim 44100 0 1 None []) 3).
  - lia.
  - reflexivity.
  - intros p i Hi. assert (Hcase : i = 0 \/ i = 1) by lia.
    destruct Hcase as [-> | ->]; reflexivity.
  - intros p. cbn. discriminate.
  - intros p i Hi. assert (Hcase : i = 0 \/ i = 1) by lia.
    destruct Hcase as [-> | ->]; reflexivity.
  - cbn. lia.
Defined.

(** Witness of X23: the backend that accepts every id. *)
Lemma enumerate_emulators_needs_refusal_witness :
  generic_enumerate_emulators (Player := unit) 1000 = None.
Proof.
  apply (enumerate_emulators_needs_refusal (Player := unit)).
  intros p i. reflexivity.
Defined.

(** Witness of X24: the bar of 30 cells of the status line. *)
Lemma print_volume_bar_shape_witness :
  String.length (print_volume_bar 30 0x1p-1%float) = Z.to_nat (30 + 2).
Proof.
  destruct (proj2 (print_volume_bar_shape 30 0x1p-1%float) ltac:(lia))
    as (cells & _ & _ & Hlen & _).
  exact Hlen.
Defined.

(** The bar of ten cells for a level of [0.35]. *)
Example print_volume_bar_ten :
  print_volume_bar 10 0x1.6666666666666p-2%float = "[****------]"%string.
Proof. vm_compute. reflexivity. Qed.
